(** * Wearable notebooks: outlier cleaning and non-adherence simulation

    A shallow embedding of the data-shaping cells that recur in the
    notebooks of this repository:

    - the z-score outlier cell of [polar_verity_sense.py] and
      [abbott_freestyle_libre_1.py] (snapshot [cx], four one-element
      slices, [np.mean], write-back with [.loc]);
    - the in-place variant of [garmin_fenix_7s.py];
    - [clean_data] of [whoop_strap_4.py];
    - [AdherenceSimulator] of [my_fitness_pal.py] (also in [strava.py],
      [cronometer.py], [polar_vantage.py]);
    - sections 9.1 and 9.2 of [dexcom_g6_pro.py].

    Finite float64 values are represented by rationals and arithmetic on
    them is exact; rounding is outside the model.  Non-finite values
    (nan, inf) are one extra constructor. *)

From Stdlib Require Import ZArith QArith Qabs Lia Lqa Bool.
From stdpp Require Import base list gmap strings.

(** ** Floats *)

Inductive float64 : Type :=
  | Fin (q : Q)
  | NonFinite.

(** All values of an array if every one of them is finite. *)
Fixpoint finite (l : list float64) : option (list Q) :=
  match l with
  | [] => Some []
  | Fin q :: r => match finite r with Some qs => Some (q :: qs) | None => None end
  | NonFinite :: _ => None
  end.

Definition Qsum (l : list Q) : Q := foldr Qplus 0%Q l.

Definition Qmean (l : list Q) : Q :=
  (Qsum l / inject_Z (Z.of_nat (length l)))%Q.

(** [np.mean]: nan on an empty array, non-finite as soon as one element is. *)
Definition np_mean (l : list float64) : float64 :=
  match finite l with
  | Some (q :: qs) => Fin (Qmean (q :: qs))
  | _ => NonFinite
  end.

(** Population variance ([ddof = 0], as [scipy.stats.zscore] and [np.std]). *)
Definition Qvar (l : list Q) : Q :=
  Qmean (map (fun x => ((x - Qmean l) * (x - Qmean l))%Q) l).

Definition Qlt_bool (a b : Q) : bool := negb (Qle_bool b a).

(** [np.abs((x - mean) / std) > t], decided without the square root.
    A zero deviation makes every z-score 0/0 = nan, and [nan > t] is False.
    The comparison is the one of exact arithmetic: where a z-score equals
    the threshold, or the deviation is zero, up to the rounding of binary64,
    numpy may decide the other way. *)
Definition abs_z_gt (l : list Q) (t x : Q) : bool :=
  if Qeq_bool (Qvar l) 0 then false
  else if Qlt_bool t 0 then true
  else Qlt_bool (t * t * Qvar l) ((x - Qmean l) * (x - Qmean l)).

(** The boolean column [hr['z'] > threshold]. *)
Definition outlier_mask (s : list float64) (t : Q) : list bool :=
  match finite s with
  | Some qs => map (abs_z_gt qs t) qs
  | None => map (fun _ => false) s
  end.

(** [hr.index[mask].tolist()] on a RangeIndex: the positions that hold True,
    in increasing order. *)
Fixpoint true_positions (from : nat) (mask : list bool) : list nat :=
  match mask with
  | [] => []
  | b :: r => (if b then [from] else []) ++ true_positions (S from) r
  end.

Definition flagged (s : list float64) (t : Q) : list nat :=
  true_positions 0 (outlier_mask s t).

(** Point [i] of [s] has an absolute z-score above [t]. *)
Definition exceeds (s : list float64) (t : Q) (i : nat) : Prop :=
  exists qs x, finite s = Some qs /\ qs !! i = Some x /\ abs_z_gt qs t x = true.

(** [int(x)]: truncation towards zero. *)
Definition py_int (x : Q) : Z := (Qnum x ÷ Z.pos (Qden x))%Z.

(** The same number, or both non-finite. *)
Definition float_eq (a b : float64) : Prop :=
  match a, b with
  | Fin x, Fin y => (x == y)%Q
  | NonFinite, NonFinite => True
  | _, _ => False
  end.

(** ** Python slices *)

(** Normalisation of one slice bound for a sequence of length [n]. *)
Definition py_bound (n i : Z) : Z :=
  if (i <? 0)%Z then Z.max (i + n) 0 else Z.min i n.

(** [l[a:b]] *)
Definition py_slice {A} (l : list A) (a b : Z) : list A :=
  let n := Z.of_nat (length l) in
  let lo := py_bound n a in
  let hi := py_bound n b in
  take (Z.to_nat (hi - lo)) (drop (Z.to_nat lo) l).

(** ** The z-score cell of the Polar and Abbott notebooks *)

(** [cx[idx-3:idx-2]+cx[idx-2:idx-1]+cx[idx+1:idx+2]+cx[idx+2:idx+3]] *)
Definition vals {A} (cx : list A) (idx : Z) : list A :=
  py_slice cx (idx - 3) (idx - 2) ++ py_slice cx (idx - 2) (idx - 1) ++
  py_slice cx (idx + 1) (idx + 2) ++ py_slice cx (idx + 2) (idx + 3).

(** One iteration: [hr.loc[idx, 'bpm'] = np.mean(vals)].  The loop only
    visits labels of the index, so the assignment never adds a row. *)
Definition replace_step (cx hr : list float64) (idx : nat) : list float64 :=
  <[idx := np_mean (vals cx (Z.of_nat idx))]> hr.

(** The loop over any list of indices, [cx] being the snapshot. *)
Definition replace_loop (cx : list float64) (idxs : list nat)
    (hr : list float64) : list float64 :=
  fold_left (replace_step cx) idxs hr.

Definition detect_and_clean (s : list float64) (t : Q) : list float64 :=
  let cx := s in
  replace_loop cx (flagged s t) s.

(** The element of an optional position, as a list. *)
Definition option_list' {A} (o : option A) : list A :=
  match o with Some x => [x] | None => [] end.

(** *** The neighbour-distance cell that precedes it *)

Definition fsub (a b : float64) : float64 :=
  match a, b with Fin x, Fin y => Fin (x - y) | _, _ => NonFinite end.

Definition fadd (a b : float64) : float64 :=
  match a, b with Fin x, Fin y => Fin (x + y) | _, _ => NonFinite end.

(** [f = lambda x: x**2] *)
Definition f (x : float64) : float64 :=
  match x with Fin q => Fin (q * q) | NonFinite => NonFinite end.

Fixpoint zip5_with {A B} (g : A -> A -> A -> A -> A -> B)
    (a b c d e : list A) : list B :=
  match a, b, c, d, e with
  | x1 :: a', x2 :: b', x3 :: c', x4 :: d', x5 :: e' =>
      g x1 x2 x3 x4 x5 :: zip5_with g a' b' c' d' e'
  | _, _, _, _, _ => []
  end.

(** [nx[k:]] and [nx[:k]] *)
Definition py_slice_from {A} (l : list A) (a : Z) : list A :=
  drop (Z.to_nat (py_bound (Z.of_nat (length l)) a)) l.

Definition py_slice_to {A} (l : list A) (b : Z) : list A :=
  take (Z.to_nat (py_bound (Z.of_nat (length l)) b)) l.

(** The variables the two cells share. *)
Record notebook : Type := {
  hr_bpm : list float64;      (* the column [hr["bpm"]] *)
  distances : list float64;   (* the list [distances] *)
}.

(** The cell that fills [distances]; [math_sqrt] stands for [math.sqrt]. *)
Definition distances_cell (math_sqrt : float64 -> float64) (nb : notebook)
    : notebook :=
  let nx := hr_bpm nb in
  let difference l1 l2 m r1 r2 :=
    math_sqrt (fadd (fadd (fadd (f (fsub m l1)) (f (fsub m l2)))
                          (f (fsub m r1))) (f (fsub m r2))) in
  {| hr_bpm := hr_bpm nb;
     distances :=
       zip5_with difference (py_slice_to nx (-4)) (py_slice nx 1 (-3))
         (py_slice nx 2 (-2)) (py_slice nx 3 (-1)) (py_slice_from nx 4) |}.

(** The cell that computes the z-scores, prints the flagged rows and
    cleans them; it returns the flagged positions with the new state. *)
Definition zscore_cell (threshold : Q) (nb : notebook) : list nat * notebook :=
  let nx := hr_bpm nb in
  (flagged nx threshold,
   {| hr_bpm := detect_and_clean nx threshold; distances := distances nb |}).

(** *** The neighbourhood as the specification words it

    The two points immediately before and the two immediately after the
    flagged position, those in range and not flagged themselves. *)
Definition spec_positions (n idx : nat) : list nat :=
  filter (fun j => j < n)
    ((if decide (2 <= idx) then [idx - 2] else []) ++
     (if decide (1 <= idx) then [idx - 1] else []) ++ [idx + 1; idx + 2]).

Definition spec_neighbours (s : list float64) (t : Q) (idx : nat) : list float64 :=
  omap (fun j => s !! j)
    (filter (fun j => j ∉ flagged s t) (spec_positions (length s) idx)).

(** ** The Garmin cell: replacement in place *)


(** The conversion on assignment.  numpy has no integer for nan or inf;
    the model leaves such a value as it is.  The case does not arise: the
    mean of a non-empty window of an integer array is finite. *)
Definition astype_int (x : float64) : float64 :=
  match x with
  | Fin q => Fin (inject_Z (py_int q))
  | NonFinite => NonFinite
  end.

(** [np.mean(concatenated_data[max(0, idx - 5):min(idx + 5, len(concatenated_data)), 1])] *)
Definition mean_val (concatenated_data : list float64) (idx : nat) : float64 :=
  let len := Z.of_nat (length concatenated_data) in
  np_mean (py_slice concatenated_data (Z.max 0 (Z.of_nat idx - 5))
                    (Z.min (Z.of_nat idx + 5) len)).

(** One turn of the loop: [concatenated_data[idx][1] = mean_val]. *)
Definition garmin_step (concatenated_data : list float64) (idx : nat)
    : list float64 :=
  <[idx := astype_int (mean_val concatenated_data idx)]> concatenated_data.


Definition garmin_loop (data : list float64) (outlier_indices : list nat)
    : list float64 :=
  fold_left garmin_step outlier_indices data.

Definition garmin_clean (s : list float64) (threshold : Q) : list float64 :=
  garmin_loop s (flagged s threshold).

(** ** [clean_data] of the Whoop notebook: removal *)

Fixpoint drop_masked {A} (data : list A) (outliers : list bool) : list A :=
  match data, outliers with
  | x :: data', b :: outliers' =>
      (if b then [] else [x]) ++ drop_masked data' outliers'
  | _, _ => []
  end.

(** [data[~outliers]] on a series of finite values. *)
Definition clean_data (data : list Q) (z_threshold : Q) : list Q :=
  let outliers := map (abs_z_gt data z_threshold) data in
  drop_masked data outliers.

(** ** Exceptions *)

Inductive exn : Type :=
  ValueError | IndexError | KeyError | TypeError | AttributeError.

(** A computation that returns a value or raises. *)
Abbreviation result := (sum exn).

#[global] Instance result_ret : MRet result := fun A x => inr x.

#[global] Instance result_bind : MBind result := fun A B k m =>
  match m with inl e => inl e | inr x => k x end.

Definition raise {A} (e : exn) : result A := inl e.

(** ** Non-adherence simulation *)

Inductive block_level : Type := day | week.

Definition block_length (b : block_level) : Z :=
  match b with day => 1 | week => 7 end.

(** [np.random.choice(population, replace=False, size=size)] for a
    population of [n] elements.  The outcome of the generator is the
    argument [draw]; numpy rejects a negative size and a size above the
    population. *)
Definition np_random_choice {A} (n size : Z) (draw : list A) : result (list A) :=
  if ((size <? 0) || (n <? size))%Z then raise ValueError else mret draw.

(** What the generator may return: [size] distinct numbers below [n]. *)
Definition is_sample (n size : Z) (draw : list nat) : Prop :=
  NoDup draw /\ Z.of_nat (length draw) = size /\
  Forall (fun i => (Z.of_nat i < n)%Z) draw.

(** [data[j]] *)
Definition getitem {A} (data : list A) (j : nat) : result A :=
  match data !! j with Some x => mret x | None => raise IndexError end.

(** [for j in js: adhered_data.append(data[j])] *)
Fixpoint append_each {A} (data : list A) (js : list nat) (adhered_data : list A)
    : result (list A) :=
  match js with
  | [] => mret adhered_data
  | j :: js' => x ← getitem data j; append_each data js' (adhered_data ++ [x])
  end.

(** The loop [for i in range(len(data))] of [AdherenceSimulator]. *)
Fixpoint adherence_loop {A} (data : list A) (block_length : Z)
    (idxes : list nat) (range : list nat) (adhered_data : list A)
    : result (list A) :=
  match range with
  | [] => mret adhered_data
  | i :: range' =>
      if bool_decide (i ∈ idxes) then
        let start := (Z.of_nat i * block_length)%Z in
        let end_ := ((Z.of_nat i + 1) * block_length)%Z in
        adhered_data' ← append_each data (seq i 1) adhered_data;
        adherence_loop data block_length idxes range' adhered_data'
      else adherence_loop data block_length idxes range' adhered_data
  end.

Definition num_blocks (len : nat) (b : block_level) : Z :=
  (Z.of_nat len / block_length b)%Z.

Definition num_blocks_to_keep (len : nat) (b : block_level)
    (adherence_percent : Q) : Z :=
  py_int (adherence_percent * inject_Z (num_blocks len b)).

Definition AdherenceSimulator {A} (b : block_level) (adherence_percent : Q)
    (draw : list nat) (data : list A) : result (list A) :=
  idxes ← np_random_choice (num_blocks (length data) b)
            (num_blocks_to_keep (length data) b adherence_percent) draw;
  adherence_loop data (block_length b) idxes (seq 0 (length data)) [].

(** The points of [l], numbered from [from], whose number is in [idxes]. *)
Fixpoint kept_points {A} (idxes : list nat) (from : nat) (l : list A) : list A :=
  match l with
  | [] => []
  | x :: r =>
      (if bool_decide (from ∈ idxes) then [x] else []) ++
      kept_points idxes (S from) r
  end.

(** *** The cell of the Polar notebooks: sessions by date *)

(** The dictionary [data]: heart rates of the session of each date, in
    insertion order, every date once. *)
Abbreviation sessions := (list (string * list float64)).

Definition keys (d : sessions) : list string := map fst d.

(** [d.pop(key)] *)
Definition pop (key : string) (d : sessions) : result sessions :=
  if bool_decide (key ∈ keys d)
  then mret (filter (fun kv => fst kv ≠ key) d)
  else raise KeyError.

(** [l.remove(key)]: the first occurrence. *)
Fixpoint list_remove (key : string) (l : list string) : result (list string) :=
  match l with
  | [] => raise ValueError
  | x :: r =>
      if decide (x = key) then mret r
      else r' ← list_remove key r; mret (x :: r')
  end.

(** [d[key]['heart_rates'] += zeros] *)
Definition extend (key : string) (zeros : list float64) (d : sessions)
    : result sessions :=
  if bool_decide (key ∈ keys d)
  then mret (map (fun kv => if decide (fst kv = key)
                            then (fst kv, snd kv ++ zeros) else kv) d)
  else raise KeyError.

(** The loop [for key in remove]; [rand_lt n] is the outcome of
    [np.random.rand() < 0.8] in iteration [n]. *)
Fixpoint nonadherence_loop (remove : list string) (rand_lt : nat -> bool)
    (n : nat) (adhered_data : sessions) (adhered_dates : list string)
    : result (sessions * list string) :=
  match remove with
  | [] => mret (adhered_data, adhered_dates)
  | key :: remove' =>
      if rand_lt n then
        adhered_data' ← pop key adhered_data;
        adhered_dates' ← list_remove key adhered_dates;
        nonadherence_loop remove' rand_lt (S n) adhered_data' adhered_dates'
      else
        adhered_data' ← extend key (replicate 100 (Fin 0)) adhered_data;
        nonadherence_loop remove' rand_lt (S n) adhered_data' adhered_dates
  end.

Definition num_blocks_to_remove (len : nat) (b : block_level)
    (adherence_percent : Q) : Z :=
  py_int ((1 - adherence_percent) * inject_Z (num_blocks len b)).

Definition polar_nonadherence (b : block_level) (adherence_percent : Q)
    (draw : list string) (rand_lt : nat -> bool) (data : sessions)
    : result (sessions * list string) :=
  let dates := keys data in
  remove ← np_random_choice (Z.of_nat (length dates))
             (num_blocks_to_remove (length dates) b adherence_percent) draw;
  nonadherence_loop remove rand_lt 0 data (keys data).






(** ** Sections 9.1 and 9.2 of the Dexcom notebook *)

Inductive cell : Type :=
  | Timestamp (seconds : Z)
  | Number (x : float64)
  | Boolean (b : bool)
  | Text (s : string).

(** A data frame: its columns by name.  All columns of a frame have the
    length of its index. *)
Abbreviation frame := (gmap string (list cell)).

(** [df.loc[:, name]] and [df[name]] raise [KeyError] on a missing column,
    [df.name] raises [AttributeError]. *)
Definition column (e : exn) (name : string) (df : frame) : result (list cell) :=
  match df !! name with Some col => mret col | None => raise e end.

(** A column read as timestamps, as numbers: a cell of another kind makes
    the arithmetic on it raise [TypeError]. *)
Fixpoint as_timestamps (col : list cell) : result (list Z) :=
  match col with
  | [] => mret []
  | Timestamp t :: r => ts ← as_timestamps r; mret (t :: ts)
  | _ :: _ => raise TypeError
  end.

Fixpoint as_numbers (col : list cell) : result (list float64) :=
  match col with
  | [] => mret []
  | Number x :: r => xs ← as_numbers r; mret (x :: xs)
  | _ :: _ => raise TypeError
  end.

(** [.dt.time], in seconds after midnight. *)
Definition time_of_day (t : Z) : Z := (t mod 86400)%Z.

Definition dayStart : Z := (9 * 3600)%Z.
Definition dayEnd : Z := 0%Z.

Definition day_mask (allTimes : list Z) : list bool :=
  if (dayStart <? dayEnd)%Z
  then map (fun t => (dayStart <=? t)%Z && (t <=? dayEnd)%Z) allTimes
  else map (fun t => (dayStart <=? t)%Z || (t <=? dayEnd)%Z) allTimes.

(** [.map({True: 'Day', False: 'Night'})]; other keys map to nan. *)
Definition map_day_night (c : cell) : cell :=
  match c with
  | Boolean true => Text "Day"
  | Boolean false => Text "Night"
  | _ => Number NonFinite
  end.

(** [df[name] = col]: the column must have the length of the index. *)
Definition set_column (rows : nat) (name : string) (col : list cell)
    (df : frame) : result frame :=
  if decide (length col = rows) then mret (<[name := col]> df)
  else raise ValueError.

(** The cell of 9.1, repeated in 9.2, that writes [df["Time of Day"]]. *)
Definition time_of_day_cell (df : frame) : result frame :=
  col ← column KeyError "datetime" df;
  ts ← as_timestamps col;
  let allTimes := map time_of_day ts in
  let mask := day_mask allTimes in
  df ← set_column (length col) "Time of Day" (map Boolean mask) df;
  c ← column KeyError "Time of Day" df;
  set_column (length col) "Time of Day" (map map_day_night c) df.

Definition fdiv (a b : float64) : float64 :=
  match a, b with
  | Fin x, Fin y => if Qeq_bool y 0 then NonFinite else Fin (x / y)
  | _, _ => NonFinite
  end.

(** [(g[i+1] - g[i]) / ((t[i+1] - t[i]).seconds / 60)] for [i] in
    [range(n - 1)], [n] the number of values [g]. *)
Fixpoint rates_of_change (g : list float64) (t : list Z)
    : result (list float64) :=
  match g, t with
  | g0 :: ((g1 :: _) as g'), t0 :: ((t1 :: _) as t') =>
      r ← rates_of_change g' t';
      mret (fdiv (fsub g1 g0) (Fin (inject_Z ((t1 - t0) mod 86400) / 60)) :: r)
  | _ :: _ :: _, _ => raise IndexError
  | _, _ => mret []
  end.

(** Rows of [col] whose label in [labels] is [l]. *)
Fixpoint rows_where (labels : list cell) (l : string) (col : list cell)
    : list cell :=
  match labels, col with
  | Text s :: labels', x :: col' =>
      (if decide (s = l) then [x] else []) ++ rows_where labels' l col'
  | _ :: labels', _ :: col' => rows_where labels' l col'
  | _, _ => []
  end.

Section Tests.
(** [scipy.stats.kruskal] and the F statistic with [f.cdf]: functions of
    the two samples they are given. *)
Variable kruskal : list cell -> list cell -> float64 * float64.
Variable f_test : list cell -> list cell -> float64 * float64.

(** Section 9.1: label the rows, then test day against night. *)
Definition section_9_1 (df : frame) : result (frame * (float64 * float64)) :=
  df ← time_of_day_cell df;
  lab ← column KeyError "Time of Day" df;
  g ← column KeyError "glucose_level" df;
  mret (df, kruskal (rows_where lab "Day" g) (rows_where lab "Night" g)).

(** Section 9.2: label the rows, add the rates of change, then compare
    their variances. *)
Definition section_9_2 (df : frame) : result (frame * (float64 * float64)) :=
  df ← time_of_day_cell df;
  gcol ← column AttributeError "glucose_level" df;
  tcol ← column AttributeError "datetime" df;
  g ← as_numbers gcol;
  t ← as_timestamps tcol;
  rates ← rates_of_change g t;
  df ← set_column (length tcol) "Rates of change"
         (map Number (rates ++ [Fin 0])) df;
  r ← column KeyError "Rates of change" df;
  lab ← column KeyError "Time of Day" df;
  mret (df, f_test (rows_where lab "Day" r) (rows_where lab "Night" r)).
End Tests.

(** ** Sample inputs *)

Definition F (z : Z) : float64 := Fin (inject_Z z).

(** Twelve readings, the first an outlier. *)
Definition series12 : list float64 :=
  map F [100; 70; 71; 72; 73; 74; 75; 76; 77; 78; 79; 80]%Z.

(** Twenty-four readings with two adjacent outliers, at positions 10 and 11. *)
Definition series24 : list float64 :=
  map F (replicate 10 70 ++ [200; 200] ++ replicate 12 70)%Z.



(** A frame of three glucose readings, at 01:00, 10:00 and 10:05. *)
Definition df0 : frame :=
  <["datetime" := [Timestamp 3600; Timestamp 36000; Timestamp 36300]]>
    (<["glucose_level" := [Number (F 100); Number (F 110); Number (F 120)]]> ∅).

(** A stand-in for a test statistic: the sizes of the two samples. *)
Definition sample_sizes (a b : list cell) : float64 * float64 :=
  (F (Z.of_nat (length a)), F (Z.of_nat (length b))).

(** A stand-in for [math.sqrt] on examples: the integer square root of the
    truncated argument. *)
Definition sqrt_floor (x : float64) : float64 :=
  match x with Fin q => F (Z.sqrt (py_int q)) | NonFinite => NonFinite end.

(** * Further cells of the same notebooks *)

(** ** Detecting non-adherence in the Polar notebook *)

(** What [np.random.choice(dates, replace=False, size=size)] may return:
    [size] distinct dates of [dates]. *)
Definition is_date_sample (dates : list string) (size : Z)
    (draw : list string) : Prop :=
  NoDup draw /\ Z.of_nat (length draw) = size /\ draw ⊆ dates.

(** [d.get(key)]: the session stored under [date], if any. *)
Fixpoint get_session (date : string) (d : sessions) : option (list float64) :=
  match d with
  | [] => None
  | kv :: r => if decide (fst kv = date) then Some (snd kv) else get_session date r
  end.

(** [d[date]['heart_rates']] *)
Definition heart_rates (date : string) (d : sessions) : result (list float64) :=
  match get_session date d with Some hr => mret hr | None => raise KeyError end.

(** [0.0 in l] *)
Definition has_zero (l : list float64) : bool :=
  existsb (fun x => match x with Fin q => Qeq_bool q 0 | NonFinite => false end) l.

(** The loop that fills [is_wearing]; [datelist] holds the days of
    [pd.date_range(start_date, end_date)] as [strftime] prints them. *)
Fixpoint is_wearing_loop (datelist : list string) (adhered_data : sessions)
    (adhered_dates : list string) (is_wearing : list Z) : result (list Z) :=
  match datelist with
  | [] => mret is_wearing
  | date :: datelist' =>
      if bool_decide (date ∈ adhered_dates) then
        hr ← heart_rates date adhered_data;
        if has_zero hr
        then is_wearing_loop datelist' adhered_data adhered_dates (is_wearing ++ [0%Z])
        else is_wearing_loop datelist' adhered_data adhered_dates (is_wearing ++ [1%Z])
      else is_wearing_loop datelist' adhered_data adhered_dates (is_wearing ++ [0%Z])
  end.


(** Three recorded days, none with a reading of zero. *)
Definition polar_sessions : sessions :=
  [("2022-03-01", [F 61; F 64; F 70]);
   ("2022-03-02", [F 58; F 59]);
   ("2022-03-03", [F 75; F 77; F 74])].

(** The days of [pd.date_range] from March 1 to March 4. *)
Definition polar_datelist : list string :=
  ["2022-03-01"; "2022-03-02"; "2022-03-03"; "2022-03-04"].
(** * Properties *)

(** ** Slices of one element *)

Lemma take_1_drop {A} (l : list A) (k : nat) :
  take 1 (drop k l) = option_list' (l !! k).
Proof.
  revert k; induction l as [|x l IH]; intros [|k]; simpl; try reflexivity.
  apply IH.
Qed.

(** [l[a:a+1]] holds [l[a]] when [0 <= a < len], [l[a+len]] when
    [-len <= a < -1], and nothing otherwise; [l[-1:0]] is empty. *)
Lemma py_slice_single {A} (l : list A) (a b : Z) :
  b = (a + 1)%Z ->
  py_slice l a b =
    if (0 <=? a)%Z then option_list' (l !! Z.to_nat a)
    else if (a =? -1)%Z then []
    else if (0 <=? a + Z.of_nat (length l))%Z
         then option_list' (l !! Z.to_nat (a + Z.of_nat (length l)))
         else [].
Proof.
  intros ->. unfold py_slice, py_bound.
  set (n := Z.of_nat (length l)).
  assert (Hn : (0 <= n)%Z) by (unfold n; lia).
  destruct (Z.leb_spec 0 a) as [Ha|Ha].
  - destruct (Z.ltb_spec a 0); [lia|].
    destruct (Z.ltb_spec (a + 1) 0); [lia|].
    destruct (Z.lt_ge_cases a n) as [Hlt|Hge].
    + replace (Z.to_nat (Z.min (a + 1) n - Z.min a n)) with 1%nat by lia.
      replace (Z.min a n) with a by lia. apply take_1_drop.
    + replace (Z.to_nat (Z.min (a + 1) n - Z.min a n)) with 0%nat by lia.
      rewrite (lookup_ge_None_2 l (Z.to_nat a)); [reflexivity|].
      unfold n in Hge. lia.
  - destruct (Z.ltb_spec a 0); [|lia].
    destruct (Z.eqb_spec a (-1)) as [->|Hne].
    + change (-1 + 1)%Z with 0%Z. cbn [Z.ltb Z.compare].
      replace (Z.to_nat (Z.min 0 n - Z.max (-1 + n) 0)) with 0%nat by lia.
      reflexivity.
    + destruct (Z.ltb_spec (a + 1) 0); [|lia].
      destruct (Z.leb_spec 0 (a + n)) as [Hin|Hout].
      * replace (Z.to_nat (Z.max (a + 1 + n) 0 - Z.max (a + n) 0)) with 1%nat by lia.
        replace (Z.max (a + n) 0) with (a + n)%Z by lia. apply take_1_drop.
      * replace (Z.to_nat (Z.max (a + 1 + n) 0 - Z.max (a + n) 0)) with 0%nat by lia.
        reflexivity.
Qed.

Lemma option_list'_length {A} (o : option A) : (length (option_list' o) <= 1)%nat.
Proof. destruct o; simpl; lia. Qed.

Lemma py_slice_single_length {A} (l : list A) (a b : Z) :
  b = (a + 1)%Z -> (length (py_slice l a b) <= 1)%nat.
Proof.
  intros H. rewrite (py_slice_single l a b H).
  repeat match goal with |- context [if ?c then _ else _] => destruct c end;
    simpl; auto using option_list'_length.
Qed.

(** ** Flagged positions *)

Lemma lookup_map {A B} (g : A -> B) (l : list A) (i : nat) :
  map g l !! i = g <$> l !! i.
Proof. revert i; induction l as [|x l IH]; intros [|i]; simpl; auto. Qed.

Lemma elem_of_true_positions (mask : list bool) (k i : nat) :
  i ∈ true_positions k mask <-> k <= i /\ mask !! (i - k) = Some true.
Proof.
  revert k; induction mask as [|b mask IH]; intros k; simpl.
  - rewrite elem_of_nil. split; [tauto|]. intros [_ H]. discriminate.
  - rewrite elem_of_app, IH. destruct (decide (i = k)) as [->|Hne].
    + replace (k - k) with 0 by lia. simpl. destruct b.
      * rewrite list_elem_of_singleton. split; [intros _|auto]. split; [lia|done].
      * rewrite elem_of_nil. split; [|intros [_ H]; discriminate].
        intros [[]|[H _]]. lia.
    + split.
      * intros [H|[H1 H2]].
        -- destruct b; [apply list_elem_of_singleton in H; done|by apply elem_of_nil in H].
        -- split; [lia|]. replace (i - k) with (S (i - S k)) by lia. done.
      * intros [H1 H2]. right. split; [lia|].
        replace (i - k) with (S (i - S k)) in H2 by lia. done.
Qed.


Lemma elem_of_flagged (s : list float64) (t : Q) (i : nat) :
  i ∈ flagged s t <-> outlier_mask s t !! i = Some true.
Proof.
  unfold flagged. rewrite elem_of_true_positions.
  replace (i - 0) with i by lia. split; [tauto|]. split; [lia|done].
Qed.

Lemma finite_length (s : list float64) (qs : list Q) :
  finite s = Some qs -> length qs = length s.
Proof.
  revert qs; induction s as [|[q|] s IH]; simpl; intros qs H.
  - by inversion H.
  - destruct (finite s) as [qs'|]; [|discriminate]. inversion H; subst.
    simpl. f_equal. by apply IH.
  - discriminate.
Qed.

Lemma finite_lookup (s : list float64) (qs : list Q) (i : nat) :
  finite s = Some qs -> s !! i = Fin <$> qs !! i.
Proof.
  revert qs i; induction s as [|[q|] s IH]; simpl; intros qs i H.
  - by inversion H.
  - destruct (finite s) as [qs'|]; [|discriminate]. inversion H; subst.
    destruct i; simpl; [done|]. by apply IH.
  - discriminate.
Qed.

Lemma finite_map_Fin (qs : list Q) : finite (map Fin qs) = Some qs.
Proof. induction qs as [|q qs IH]; simpl; [done|]. by rewrite IH. Qed.

Lemma outlier_mask_length (s : list float64) (t : Q) :
  length (outlier_mask s t) = length s.
Proof.
  unfold outlier_mask. destruct (finite s) as [qs|] eqn:E.
  - rewrite length_map. by apply finite_length.
  - by rewrite length_map.
Qed.

(** A position is flagged exactly when its absolute z-score exceeds the
    threshold. *)
Lemma flagged_exceeds (s : list float64) (t : Q) (i : nat) :
  i ∈ flagged s t <-> exceeds s t i.
Proof.
  rewrite elem_of_flagged. unfold outlier_mask, exceeds.
  destruct (finite s) as [qs|] eqn:E.
  - rewrite lookup_map. split.
    + destruct (qs !! i) as [x|] eqn:Ex; simpl; [|discriminate].
      intros [= H]. by exists qs, x.
    + intros (qs' & x & [= <-] & Hx & H). by rewrite Hx; simpl; rewrite H.
  - split.
    + rewrite lookup_map. destruct (s !! i); simpl; discriminate.
    + intros (qs' & x & [=] & _).
Qed.

Lemma flagged_lt (s : list float64) (t : Q) (i : nat) :
  i ∈ flagged s t -> i < length s.
Proof.
  rewrite elem_of_flagged. intros H. apply lookup_lt_Some in H.
  by rewrite outlier_mask_length in H.
Qed.


(** ** The replacement loop *)

Lemma replace_loop_length (cx : list float64) (idxs : list nat)
    (hr : list float64) :
  length (replace_loop cx idxs hr) = length hr.
Proof.
  unfold replace_loop. revert hr; induction idxs as [|a idxs IH]; intros hr;
    simpl; [done|]. rewrite IH. unfold replace_step. apply length_insert.
Qed.

(** Every position of the list of indices holds the mean of its window of
    the snapshot, every other position is untouched, whatever the order
    and the repetitions of the list. *)
Lemma replace_loop_lookup (cx : list float64) (idxs : list nat)
    (hr : list float64) (i : nat) :
  replace_loop cx idxs hr !! i =
    if decide (i ∈ idxs /\ i < length hr)
    then Some (np_mean (vals cx (Z.of_nat i)))
    else hr !! i.
Proof.
  unfold replace_loop. revert hr; induction idxs as [|a idxs IH]; intros hr;
    cbn [fold_left].
  - destruct (decide _) as [[H _]|_]; [|done]. by apply elem_of_nil in H.
  - rewrite IH. unfold replace_step. rewrite length_insert.
    destruct (decide (i = a)) as [->|Hne].
    + destruct (decide (a < length hr)) as [Hlt|Hge].
      * rewrite list_lookup_insert_eq by done.
        destruct (decide (a ∈ a :: idxs /\ _)) as [_|Hn].
        -- by destruct (decide _).
        -- exfalso. apply Hn. split; [left|done].
      * rewrite list_insert_ge by lia.
        destruct (decide (a ∈ idxs /\ _)) as [[_ ?]|_]; [lia|].
        destruct (decide (a ∈ a :: idxs /\ _)) as [[_ ?]|_]; [lia|done].
    + rewrite list_lookup_insert_ne by done.
      destruct (decide (i ∈ idxs /\ _)) as [[Hi ?]|Hn1];
        destruct (decide (i ∈ a :: idxs /\ _)) as [[Hi' ?]|Hn2]; try done.
      * exfalso. apply Hn2. split; [by right|done].
      * exfalso. apply Hn1. split; [|done].
        apply elem_of_cons in Hi' as [?|?]; [done|done].
Qed.

Lemma replace_loop_Permutation (cx : list float64) (idxs idxs' : list nat)
    (hr : list float64) :
  idxs ≡ₚ idxs' -> replace_loop cx idxs hr = replace_loop cx idxs' hr.
Proof.
  intros HP. apply list_eq. intros i. rewrite !replace_loop_lookup.
  destruct (decide (i ∈ idxs /\ _)) as [[Hi ?]|Hn1];
    destruct (decide (i ∈ idxs' /\ _)) as [[Hi' ?]|Hn2]; try done; exfalso.
  - apply Hn2. by rewrite <- HP.
  - apply Hn1. by rewrite HP.
Qed.

Lemma detect_and_clean_length (s : list float64) (t : Q) :
  length (detect_and_clean s t) = length s.
Proof. apply replace_loop_length. Qed.

Lemma detect_and_clean_flagged (s : list float64) (t : Q) (i : nat) :
  i ∈ flagged s t ->
  detect_and_clean s t !! i = Some (np_mean (vals s (Z.of_nat i))).
Proof.
  intros H. unfold detect_and_clean. rewrite replace_loop_lookup.
  destruct (decide _) as [_|Hd]; [done|]. exfalso. apply Hd. split; [done|].
  by apply flagged_lt in H.
Qed.

Lemma detect_and_clean_unflagged (s : list float64) (t : Q) (i : nat) :
  i ∉ flagged s t -> detect_and_clean s t !! i = s !! i.
Proof.
  intros H. unfold detect_and_clean. rewrite replace_loop_lookup.
  destruct (decide _) as [Hd|_]; [|done]. tauto.
Qed.

(** ** The averaging window *)

Lemma py_slice_elem_of {A} (l : list A) (a b : Z) (x : A) :
  x ∈ py_slice l a b -> x ∈ l.
Proof.
  unfold py_slice. intros H.
  apply (subseteq_take _ _ _ ) in H. by apply (subseteq_drop _ _ _) in H.
Qed.

(** The two slices after the index hold [cx[idx+1]] and [cx[idx+2]] when
    these exist. *)
Lemma vals_after {A} (cx : list A) (i : nat) :
  py_slice cx (Z.of_nat i + 1) (Z.of_nat i + 2) ++
  py_slice cx (Z.of_nat i + 2) (Z.of_nat i + 3) =
  option_list' (cx !! (i + 1)) ++ option_list' (cx !! (i + 2)).
Proof.
  rewrite !py_slice_single by lia.
  destruct (Z.leb_spec 0 (Z.of_nat i + 1)); [|lia].
  destruct (Z.leb_spec 0 (Z.of_nat i + 2)); [|lia].
  replace (Z.to_nat (Z.of_nat i + 1)) with (i + 1) by lia.
  replace (Z.to_nat (Z.of_nat i + 2)) with (i + 2) by lia. done.
Qed.

Lemma vals_length_le {A} (cx : list A) (idx : Z) : length (vals cx idx) <= 4.
Proof.
  unfold vals. rewrite !length_app.
  pose proof (py_slice_single_length cx (idx - 3) (idx - 2)).
  pose proof (py_slice_single_length cx (idx - 2) (idx - 1)).
  pose proof (py_slice_single_length cx (idx + 1) (idx + 2)).
  pose proof (py_slice_single_length cx (idx + 2) (idx + 3)). lia.
Qed.

Lemma option_list'_lookup_length {A} (l : list A) (k : nat) :
  k < length l -> length (option_list' (l !! k)) = 1.
Proof. intros H. destruct (lookup_lt_is_Some_2 l k H) as [x ->]. done. Qed.

Lemma py_slice_single_full {A} (l : list A) (a b : Z) :
  b = (a + 1)%Z ->
  (0 <= a < Z.of_nat (length l) \/ a < -1 /\ 0 <= a + Z.of_nat (length l))%Z ->
  length (py_slice l a b) = 1.
Proof.
  intros H Ha. rewrite (py_slice_single l a b H).
  destruct (Z.leb_spec 0 a).
  - apply option_list'_lookup_length. lia.
  - destruct (Z.eqb_spec a (-1)); [lia|].
    destruct (Z.leb_spec 0 (a + Z.of_nat (length l))); [|lia].
    apply option_list'_lookup_length. lia.
Qed.

(** With at least two points in the series, the two slices before the
    index are never both empty. *)
Lemma vals_before_nonempty {A} (cx : list A) (i : nat) :
  2 <= length cx -> i < length cx ->
  1 <= length (py_slice cx (Z.of_nat i - 3) (Z.of_nat i - 2) ++
               py_slice cx (Z.of_nat i - 2) (Z.of_nat i - 1)).
Proof.
  intros Hn Hi. rewrite length_app.
  destruct (decide (i = 0 \/ i = 2)) as [Hlt|Hge].
  - rewrite (py_slice_single_full cx (Z.of_nat i - 2)) by lia. lia.
  - rewrite (py_slice_single_full cx (Z.of_nat i - 3)) by lia. lia.
Qed.

Lemma vals_nonempty {A} (cx : list A) (i : nat) :
  2 <= length cx -> i < length cx -> 1 <= length (vals cx (Z.of_nat i)).
Proof.
  intros Hn Hi. unfold vals. rewrite app_assoc, length_app.
  pose proof (vals_before_nonempty cx i Hn Hi). lia.
Qed.

(** The values averaged are the values at the positions that the same
    slices select. *)
Lemma py_slice_positions {A} (cx : list A) (a b : Z) :
  b = (a + 1)%Z ->
  py_slice cx a b = omap (fun j => cx !! j) (py_slice (seq 0 (length cx)) a b).
Proof.
  intros H. rewrite !py_slice_single by done. rewrite length_seq.
  assert (Hs : forall k, omap (fun j => cx !! j)
                 (option_list' (seq 0 (length cx) !! k)) = option_list' (cx !! k)).
  { intros k. destruct (decide (k < length cx)) as [Hk|Hk].
    - rewrite lookup_seq_lt by done. simpl. by destruct (cx !! k).
    - rewrite lookup_seq_ge by lia. rewrite lookup_ge_None_2 by lia. done. }
  repeat match goal with |- context [if ?c then _ else _] => destruct c end;
    auto.
Qed.

Lemma vals_positions {A} (cx : list A) (idx : Z) :
  vals cx idx = omap (fun j => cx !! j) (vals (seq 0 (length cx)) idx).
Proof.
  unfold vals. rewrite !omap_app.
  rewrite <- !py_slice_positions by lia. done.
Qed.

(** ** Facts on z-scores *)

(** A series of fewer than two points has zero deviation: nothing in it
    is flagged. *)
Lemma abs_z_gt_two (l : list Q) (t x : Q) :
  abs_z_gt l t x = true -> 2 <= length l.
Proof.
  destruct l as [|a [|b l]]; simpl; try lia; unfold abs_z_gt.
  - discriminate.
  - assert (E : Qeq_bool (Qvar [a]) 0 = true).
    { apply Qeq_bool_iff. unfold Qvar, Qmean, Qsum. simpl. field. }
    rewrite E. discriminate.
Qed.

Lemma flagged_two (s : list float64) (t : Q) (i : nat) :
  i ∈ flagged s t -> 2 <= length s.
Proof.
  rewrite flagged_exceeds. intros (qs & x & Hf & _ & H).
  apply abs_z_gt_two in H. by rewrite <- (finite_length s qs Hf).
Qed.

Lemma Qlt_bool_iff (a b : Q) : Qlt_bool a b = true <-> (a < b)%Q.
Proof.
  unfold Qlt_bool. rewrite negb_true_iff. split.
  - intros H. apply Qnot_le_lt. intros Hle. apply Qle_bool_iff in Hle. congruence.
  - intros H. destruct (Qle_bool b a) eqn:E; [|done].
    apply Qle_bool_iff in E. exfalso. by apply (Qlt_not_le a b).
Qed.

Lemma square_lt (t sd a : Q) :
  (0 <= t)%Q -> (0 < sd)%Q -> (0 <= a)%Q ->
  (t * t * (sd * sd) < a * a)%Q <-> (t * sd < a)%Q.
Proof.
  intros Ht Hsd Ha.
  assert (Hu : (0 <= t * sd)%Q) by (apply Qmult_le_0_compat; lra).
  split; intros H.
  - destruct (Qlt_le_dec (t * sd) a) as [|Hle]; [done|exfalso].
    pose proof (Qmult_le_compat_r _ _ a Hle Ha).
    pose proof (Qmult_le_compat_r _ _ (t * sd) Hle Hu). lra.
  - assert (Hle : (t * sd <= a)%Q) by lra.
    pose proof (Qmult_le_compat_r _ _ (t * sd) Hle Hu).
    assert (Hpa : (0 < a)%Q) by lra.
    pose proof (Qmult_lt_compat_r _ _ a Hpa H). lra.
Qed.

(** The test without square root agrees with the quotient by the standard
    deviation whenever that deviation is a rational [sd]. *)
Lemma abs_z_gt_spec (l : list Q) (t x sd : Q) :
  (0 < sd)%Q -> (sd * sd == Qvar l)%Q ->
  abs_z_gt l t x = true <-> (t < Qabs (x - Qmean l) / sd)%Q.
Proof.
  intros Hsd Hvar. unfold abs_z_gt.
  assert (Hpos : (0 < sd * sd)%Q) by nra.
  assert (E : Qeq_bool (Qvar l) 0 = false).
  { destruct (Qeq_bool (Qvar l) 0) eqn:E; [|done]. apply Qeq_bool_iff in E.
    rewrite <- Hvar in E. rewrite E in Hpos. by apply Qlt_irrefl in Hpos. }
  rewrite E. set (d := (x - Qmean l)%Q).
  assert (Hd : (0 <= Qabs d)%Q) by apply Qabs_nonneg.
  assert (Hdd : (d * d == Qabs d * Qabs d)%Q).
  { destruct (Qlt_le_dec d 0) as [Hn|Hp].
    - rewrite (Qabs_neg d) by lra. ring.
    - rewrite (Qabs_pos d) by lra. ring. }
  destruct (Qlt_bool t 0) eqn:Et.
  - apply Qlt_bool_iff in Et. split; [intros _|done].
    apply Qlt_shift_div_l; [done|]. nra.
  - assert (Ht : (0 <= t)%Q).
    { apply Qnot_lt_le. intros Hlt. apply Qlt_bool_iff in Hlt. congruence. }
    rewrite Qlt_bool_iff. rewrite <- Hvar, Hdd.
    rewrite (square_lt t sd (Qabs d) Ht Hsd Hd). split.
    + intros H. by apply Qlt_shift_div_l.
    + intros H. apply (Qmult_lt_compat_r _ _ sd Hsd) in H.
      assert (Ediv : (Qabs d / sd * sd == Qabs d)%Q) by (field; lra).
      by rewrite Ediv in H.
Qed.

(** ** Detect-and-clean *)

(** C1, as the code has it.  The flagged points are exactly those whose
    absolute z-score exceeds the threshold; a point that is not flagged
    keeps its value; a flagged point receives the mean of between one and
    four values of the series as it was before cleaning, among them the
    (up to two) points immediately after it, whether or not these are
    flagged themselves. *)
Theorem detect_and_clean_spec (s : list float64) (t : Q) (i : nat) :
  (i ∈ flagged s t <-> exceeds s t i) /\
  (i ∉ flagged s t -> detect_and_clean s t !! i = s !! i) /\
  (i ∈ flagged s t ->
   exists before,
     let after := option_list' (s !! (i + 1)) ++ option_list' (s !! (i + 2)) in
     detect_and_clean s t !! i = Some (np_mean (before ++ after)) /\
     length before <= 2 /\ (forall x, x ∈ before -> x ∈ s) /\
     1 <= length (before ++ after) <= 4).
Proof.
  split; [apply flagged_exceeds|]. split; [apply detect_and_clean_unflagged|].
  intros Hi.
  exists (py_slice s (Z.of_nat i - 3) (Z.of_nat i - 2) ++
          py_slice s (Z.of_nat i - 2) (Z.of_nat i - 1)).
  cbv zeta. rewrite <- vals_after, <- app_assoc.
  change (py_slice s (Z.of_nat i - 3) (Z.of_nat i - 2) ++
          py_slice s (Z.of_nat i - 2) (Z.of_nat i - 1) ++
          py_slice s (Z.of_nat i + 1) (Z.of_nat i + 2) ++
          py_slice s (Z.of_nat i + 2) (Z.of_nat i + 3))
    with (vals s (Z.of_nat i)).
  split; [by apply detect_and_clean_flagged|]. split; [|split].
  - rewrite length_app.
    pose proof (py_slice_single_length s (Z.of_nat i - 3) (Z.of_nat i - 2)).
    pose proof (py_slice_single_length s (Z.of_nat i - 2) (Z.of_nat i - 1)). lia.
  - intros x [H|H]%elem_of_app; by apply py_slice_elem_of in H.
  - split; [|apply vals_length_le].
    apply vals_nonempty; [by apply flagged_two in Hi|by apply flagged_lt in Hi].
Qed.

(** C1, as the specification words it, fails on [series24]: position 10 is
    flagged and its neighbours 8, 9 and 12 are not, but the value written
    there is not their mean, because the flagged neighbour 11 is averaged
    in as well. *)
Lemma detect_and_clean_averages_flagged_neighbour :
  flagged series24 3 = [10; 11] /\
  spec_neighbours series24 3 10 = [F 70; F 70; F 70] /\
  exists v, detect_and_clean series24 3 !! 10 = Some v /\
            ~ float_eq v (np_mean (spec_neighbours series24 3 10)).
Proof.
  split; [by vm_compute|]. split; [by vm_compute|].
  eexists. split; [by vm_compute|]. vm_compute. discriminate.
Qed.

(** *** Windows at the start of the series (C5) *)

(** At position 0 of a series of at least five points the two slices
    before the index select the third-last and the second-last position. *)
Lemma vals_positions_0 (n : nat) :
  5 <= n -> vals (seq 0 n) 0 = [n - 3; n - 2; 1; 2].
Proof.
  intros Hn. unfold vals. rewrite !py_slice_single by lia.
  rewrite length_seq.
  change (0 <=? 0 - 3)%Z with false. change (0 <=? 0 - 2)%Z with false.
  change (0 - 3 =? -1)%Z with false. change (0 - 2 =? -1)%Z with false.
  change (0 <=? 0 + 1)%Z with true. change (0 <=? 0 + 2)%Z with true.
  destruct (Z.leb_spec 0 (0 - 3 + Z.of_nat n)); [|lia].
  destruct (Z.leb_spec 0 (0 - 2 + Z.of_nat n)); [|lia].
  rewrite !lookup_seq_lt by lia. simpl. repeat f_equal; lia.
Qed.

(** C5 on [series12]: the outlier at position 0 is replaced by the mean of
    the values at positions 9, 10, 1 and 2. *)
Lemma vals_wraps_around_at_0 :
  flagged series12 3 = [0] /\
  vals (seq 0 12) 0 = [9; 10; 1; 2] /\
  vals series12 0 = [F 78; F 79; F 70; F 71] /\
  exists v, detect_and_clean series12 3 !! 0 = Some v /\
            float_eq v (Fin (149 # 2)).
Proof.
  split; [by vm_compute|]. split; [by vm_compute|]. split; [by vm_compute|].
  eexists. split; [by vm_compute|]. by vm_compute.
Qed.

(** *** Adjacent flagged points (C9) *)

(** C9 on [series24]: the window of position 11 does not hold position 10,
    so the value written at 11 is the mean of four clean readings, while
    the window of position 10 holds the original reading at 11. *)
Lemma adjacent_outliers_windows :
  flagged series24 3 = [10; 11] /\
  vals (seq 0 24) 10 = [7; 8; 11; 12] /\
  vals (seq 0 24) 11 = [8; 9; 12; 13] /\
  (exists v, detect_and_clean series24 3 !! 10 = Some v /\
             float_eq v (Fin (205 # 2))) /\
  (exists v, detect_and_clean series24 3 !! 11 = Some v /\ float_eq v (F 70)).
Proof.
  split; [by vm_compute|]. split; [by vm_compute|]. split; [by vm_compute|].
  split; eexists; (split; [by vm_compute|by vm_compute]).
Qed.

(** *** No non-finite value is introduced *)

Lemma finite_Forall (l : list float64) :
  is_Some (finite l) <-> Forall (fun x => exists q, x = Fin q) l.
Proof.
  induction l as [|[q|] l IH]; simpl.
  - split; [constructor|by eexists].
  - rewrite Forall_cons, <- IH. split.
    + intros [qs H]. destruct (finite l); [|discriminate].
      split; by eexists.
    + intros [_ [qs ->]]. by eexists.
  - split; [by intros [? ?]|]. intros [[q [=]] _]%Forall_cons.
Qed.

Lemma np_mean_finite (l : list float64) :
  is_Some (finite l) -> 1 <= length l -> exists q, np_mean l = Fin q.
Proof.
  intros [qs H] Hl. unfold np_mean. rewrite H.
  destruct qs as [|q qs]; [|by eexists].
  apply finite_length in H. simpl in H. lia.
Qed.

(** Cleaning a series of finite values yields finite values: no flagged
    point is given the mean of an empty window. *)
Lemma detect_and_clean_finite (s : list float64) (t : Q) :
  is_Some (finite s) -> is_Some (finite (detect_and_clean s t)).
Proof.
  rewrite !finite_Forall, !Forall_lookup. intros Hs i x Hx.
  destruct (decide (i ∈ flagged s t)) as [Hi|Hi].
  - rewrite detect_and_clean_flagged in Hx by done. injection Hx as <-.
    apply np_mean_finite.
    + apply finite_Forall, Forall_forall. intros y Hy.
      unfold vals in Hy. rewrite !elem_of_app in Hy.
      assert (Hys : y ∈ s) by (destruct Hy as [|[|[|]]]; by eapply py_slice_elem_of).
      apply list_elem_of_lookup in Hys as [j Hj]. by apply (Hs j).
    + apply vals_nonempty; [by apply flagged_two in Hi|by apply flagged_lt in Hi].
  - rewrite detect_and_clean_unflagged in Hx by done. by apply (Hs i).
Qed.

(** *** A second pass (C2) *)




(** [clean_data] removes rather than replaces, and behaves alike: on the
    same readings one pass removes the large outlier, a second pass the
    smaller one. *)
Lemma clean_data_not_idempotent :
  let data := map inject_Z
    (replicate 5 70 ++ [1000] ++ replicate 9 70 ++ [120] ++ replicate 8 70)%Z in
  length (clean_data data 3) = 23 /\
  length (clean_data (clean_data data 3) 3) = 22.
Proof. by vm_compute. Qed.

(** ** The Garmin cell *)

Lemma garmin_step_length (data : list float64) (idx : nat) :
  length (garmin_step data idx) = length data.
Proof. unfold garmin_step. apply length_insert. Qed.

Lemma garmin_loop_length (data : list float64) (idxs : list nat) :
  length (garmin_loop data idxs) = length data.
Proof.
  unfold garmin_loop. revert data; induction idxs as [|a idxs IH]; intros data;
    simpl; [done|]. by rewrite IH, garmin_step_length.
Qed.

Lemma garmin_loop_other (data : list float64) (idxs : list nat) (i : nat) :
  i ∉ idxs -> garmin_loop data idxs !! i = data !! i.
Proof.
  unfold garmin_loop. revert data; induction idxs as [|a idxs IH]; intros data Hi;
    simpl; [done|].
  apply not_elem_of_cons in Hi as [Hne Hi]. rewrite IH by done.
  unfold garmin_step. by rewrite list_lookup_insert_ne.
Qed.


(** The slice [data[max(0, idx - 5):min(idx + 5, len)]] is the run of
    [data] from position [idx - 5] (or 0) up to, not including, position
    [idx + 5] (or [len]). *)
Lemma garmin_window (data : list float64) (idx : nat) :
  py_slice data (Z.max 0 (Z.of_nat idx - 5))
    (Z.min (Z.of_nat idx + 5) (Z.of_nat (length data))) =
  take (Nat.min (idx + 5) (length data) - (idx - 5)) (drop (idx - 5) data).
Proof.
  unfold py_slice, py_bound.
  destruct (Z.ltb_spec (Z.max 0 (Z.of_nat idx - 5)) 0); [lia|].
  destruct (Z.ltb_spec (Z.min (Z.of_nat idx + 5) (Z.of_nat (length data))) 0);
    [lia|].
  destruct (decide (idx - 5 <= length data)) as [Hle|Hgt].
  - f_equal; [lia|f_equal; lia].
  - rewrite !drop_ge by lia. by rewrite !take_nil.
Qed.

(** For any index of the array the slice is not empty, lies in the array
    and holds the element at the index itself. *)
Lemma garmin_window_contains (data : list float64) (idx : nat) :
  idx < length data ->
  let window :=
    py_slice data (Z.max 0 (Z.of_nat idx - 5))
      (Z.min (Z.of_nat idx + 5) (Z.of_nat (length data))) in
  1 <= length window <= 10 /\
  window !! (idx - (idx - 5)) = data !! idx /\
  forall x, x ∈ window -> x ∈ data.
Proof.
  intros Hlt window. split; [|split].
  - unfold window. rewrite garmin_window, length_take, length_drop. lia.
  - unfold window. rewrite garmin_window, lookup_take_lt by lia.
    rewrite lookup_drop. f_equal. lia.
  - intros x. apply py_slice_elem_of.
Qed.

(** The mean that the loop computes at an index of an array of finite
    readings is finite: its window is never empty. *)
Lemma mean_val_finite (data : list float64) (idx : nat) :
  is_Some (finite data) -> idx < length data ->
  exists q, mean_val data idx = Fin q.
Proof.
  intros Hf Hlt. unfold mean_val.
  destruct (garmin_window_contains data idx Hlt) as ([Hne _] & _ & Hsub).
  apply np_mean_finite; [|done].
  apply finite_Forall, Forall_forall. intros x Hx.
  apply finite_Forall in Hf. rewrite Forall_forall in Hf. by apply Hf, Hsub.
Qed.










(** ** Computations that may raise *)

Lemma bind_inr {A B} (m : result A) (k : A -> result B) (b : B) :
  m ≫= k = inr b <-> exists a, m = inr a /\ k a = inr b.
Proof.
  destruct m as [e|a]; simpl.
  - split; [discriminate|]. by intros (a & [=] & _).
  - split; [by exists a|]. by intros (a' & [= <-] & H).
Qed.

(** Unfolds the monad on a goal whose computations are values or raises. *)
Ltac result_simpl :=
  cbn [mbind result_bind mret result_ret raise] in *.

(** ** [AdherenceSimulator] *)

Lemma adherence_loop_seq {A} (data : list A) (bl : Z) (idxes : list nat)
    (rest : list A) (k : nat) (acc : list A) :
  drop k data = rest ->
  adherence_loop data bl idxes (seq k (length rest)) acc =
    inr (acc ++ kept_points idxes k rest).
Proof.
  revert k acc; induction rest as [|x rest IH]; intros k acc Hd; simpl.
  - by rewrite app_nil_r.
  - assert (Hx : data !! k = Some x).
    { rewrite <- (Nat.add_0_r k), <- lookup_drop, Hd. done. }
    assert (Hd' : drop (S k) data = rest).
    { by rewrite (drop_S data x k Hx) in Hd; inversion Hd. }
    destruct (bool_decide (k ∈ idxes)).
    + unfold getitem. rewrite Hx. result_simpl.
      rewrite (IH (S k) _ Hd'). by rewrite <- app_assoc.
    + by rewrite (IH (S k) _ Hd').
Qed.

(** The simulator fails exactly when numpy rejects the sample size, and
    otherwise returns the points whose own position was drawn. *)
Lemma AdherenceSimulator_unfold {A} (b : block_level) (p : Q)
    (draw : list nat) (data : list A) :
  AdherenceSimulator b p draw data =
    if ((num_blocks_to_keep (length data) b p <? 0) ||
        (num_blocks (length data) b <? num_blocks_to_keep (length data) b p))%Z
    then inl ValueError
    else inr (kept_points draw 0 data).
Proof.
  unfold AdherenceSimulator, np_random_choice.
  destruct (_ || _); [done|]. result_simpl.
  by rewrite (adherence_loop_seq data _ draw data 0 []).
Qed.

Lemma kept_points_sublist {A} (idxes : list nat) (k : nat) (l : list A) :
  kept_points idxes k l `sublist_of` l.
Proof.
  revert k; induction l as [|x l IH]; intros k; simpl; [constructor|].
  destruct (bool_decide _); simpl; [by apply sublist_skip|by apply sublist_cons].
Qed.

Lemma kept_points_length {A} (idxes : list nat) (k : nat) (l : list A) :
  length (kept_points idxes k l) =
  length (filter (fun i => i ∈ idxes) (seq k (length l))).
Proof.
  revert k; induction l as [|x l IH]; intros k; simpl; [done|].
  rewrite length_app, IH. rewrite filter_cons. case_bool_decide as Hk.
  - by rewrite decide_True.
  - by rewrite decide_False.
Qed.

Lemma kept_points_all {A} (idxes : list nat) (k : nat) (l : list A) :
  (forall i, k <= i < k + length l -> i ∈ idxes) -> kept_points idxes k l = l.
Proof.
  revert k; induction l as [|x l IH]; intros k H; simpl; [done|].
  rewrite bool_decide_eq_true_2 by (apply H; simpl; lia).
  simpl. f_equal. apply IH. intros i Hi. apply H. simpl. lia.
Qed.

Lemma sample_length {A} (n size : Z) (draw : list nat) (data : list A) :
  is_sample n size draw -> (n <= Z.of_nat (length data))%Z ->
  length (kept_points draw 0 data) = length draw.
Proof.
  intros (Hnd & _ & Hlt) Hn. rewrite kept_points_length.
  apply Permutation_length, NoDup_Permutation; [|done|].
  - apply NoDup_filter, NoDup_seq.
  - intros i. rewrite list_elem_of_filter, elem_of_seq. split; [tauto|].
    intros Hi. split; [done|]. rewrite Forall_forall in Hlt.
    specialize (Hlt i Hi). lia.
Qed.

Lemma sample_all (n : nat) (draw : list nat) (i : nat) :
  is_sample (Z.of_nat n) (Z.of_nat n) draw -> i < n -> i ∈ draw.
Proof.
  intros (Hnd & Hlen & Hlt) Hi.
  assert (HP : draw ≡ₚ seq 0 n).
  { apply submseteq_length_Permutation; [|rewrite length_seq; lia].
    apply NoDup_submseteq; [done|]. intros j Hj. rewrite elem_of_seq.
    rewrite Forall_forall in Hlt. specialize (Hlt j Hj). lia. }
  rewrite HP, elem_of_seq. lia.
Qed.

(** *** Truncation *)

Lemma py_int_bounds (x : Q) (N : Z) :
  (0 <= x)%Q -> (x <= inject_Z N)%Q -> (0 <= py_int x <= N)%Z.
Proof.
  destruct x as [a d]. unfold Qle, py_int. simpl. intros H0 HN.
  assert (Ha : (0 <= a)%Z) by lia.
  rewrite Z.quot_div_nonneg by lia. split.
  - apply Z.div_pos; lia.
  - apply Z.div_le_upper_bound; lia.
Qed.

Lemma py_int_inject (x : Q) (N : Z) : (x == inject_Z N)%Q -> py_int x = N.
Proof.
  destruct x as [a d]. unfold Qeq, py_int. simpl. intros H.
  rewrite Z.mul_1_r in H. subst a. apply Z.quot_mul. lia.
Qed.

Lemma num_blocks_bounds (len : nat) (b : block_level) :
  (0 <= num_blocks len b <= Z.of_nat len)%Z.
Proof.
  unfold num_blocks. destruct b; simpl.
  - rewrite Z.div_1_r. lia.
  - split; [apply Z.div_pos; lia|]. apply Z.div_le_upper_bound; lia.
Qed.

Lemma num_blocks_to_keep_bounds (len : nat) (b : block_level) (p : Q) :
  (0 <= p <= 1)%Q ->
  (0 <= num_blocks_to_keep len b p <= num_blocks len b)%Z.
Proof.
  intros [H0 H1]. unfold num_blocks_to_keep.
  pose proof (num_blocks_bounds len b) as [Hn _].
  assert (Hq : (0 <= inject_Z (num_blocks len b))%Q).
  { change 0%Q with (inject_Z 0). by rewrite <- Zle_Qle. }
  apply py_int_bounds; nra.
Qed.

(** Goals [is_sample n k (seq 0 k)] on concrete numbers. *)
Ltac sample_of_seq :=
  split; [apply NoDup_seq|]; split; [reflexivity|];
  apply Forall_forall; intros ? ?%elem_of_seq;
  repeat match goal with
         | |- context [num_blocks ?n ?b] =>
             let v := eval vm_compute in (num_blocks n b) in
             change (num_blocks n b) with v
         end; lia.

(** *** Lengths (C4) *)

(** C4, as the code has it.  For a keep fraction in [0,1] the simulator
    returns a result no longer than its input; the result is empty when the
    fraction is 0, and it is the input itself when the fraction is 1 and
    the blocks are days. *)
Theorem AdherenceSimulator_length {A} (b : block_level) (p : Q)
    (draw : list nat) (data : list A) :
  (0 <= p <= 1)%Q ->
  is_sample (num_blocks (length data) b)
            (num_blocks_to_keep (length data) b p) draw ->
  exists res,
    AdherenceSimulator b p draw data = inr res /\
    length res <= length data /\
    ((p == 0)%Q -> length res = 0) /\
    ((p == 1)%Q -> b = day -> length res = length data /\ res = data).
Proof.
  intros Hp Hs. exists (kept_points draw 0 data).
  pose proof (num_blocks_to_keep_bounds (length data) b p Hp) as [Hk0 Hkn].
  pose proof (num_blocks_bounds (length data) b) as [_ Hnb].
  split.
  { rewrite AdherenceSimulator_unfold.
    destruct (Z.ltb_spec (num_blocks_to_keep (length data) b p) 0); [lia|].
    destruct (Z.ltb_spec (num_blocks (length data) b)
                (num_blocks_to_keep (length data) b p)); [lia|]. done. }
  split; [apply sublist_length, kept_points_sublist|]. split.
  - intros E. rewrite (sample_length _ _ draw data Hs Hnb).
    destruct Hs as (_ & Hlen & _).
    assert (Hz : num_blocks_to_keep (length data) b p = 0%Z).
    { unfold num_blocks_to_keep. apply (py_int_inject _ 0). rewrite E. ring. }
    lia.
  - intros E ->.
    assert (Hn : num_blocks (length data) day = Z.of_nat (length data)).
    { unfold num_blocks. simpl. apply Z.div_1_r. }
    assert (Hk : num_blocks_to_keep (length data) day p = Z.of_nat (length data)).
    { unfold num_blocks_to_keep. rewrite Hn. apply py_int_inject. rewrite E. ring. }
    rewrite Hn, Hk in Hs.
    assert (Hall : kept_points draw 0 data = data).
    { apply kept_points_all. intros i Hi. apply (sample_all (length data)); [done|lia]. }
    by rewrite Hall.
Qed.

(** Three daily points at keep fraction 1: all three are returned. *)
Lemma AdherenceSimulator_length_witness :
  exists res,
    AdherenceSimulator day 1 [2; 0; 1] [10; 20; 30] = inr res /\
    length res = 3.
Proof.
  assert (Hp : (0 <= 1 <= 1)%Q) by (split; discriminate).
  assert (Hs : is_sample (num_blocks (length [10; 20; 30]) day)
                 (num_blocks_to_keep (length [10; 20; 30]) day 1) [2; 0; 1]).
  { split; [|split].
    - apply NoDup_ListNoDup. repeat constructor; simpl; lia.
    - reflexivity.
    - repeat constructor. }
  destruct (AdherenceSimulator_length day 1 [2; 0; 1] [10; 20; 30] Hp Hs)
    as (res & E & _ & _ & H1).
  exists res. split; [exact E|]. by apply H1.
Defined.

(** C4 fails for weeks at keep fraction 1: of ten daily points, one full
    week exists, the only admissible draw is block 0, and the result has
    one point. *)
Lemma AdherenceSimulator_week_keep_all :
  (0 <= 1 <= 1)%Q /\
  is_sample (num_blocks 10 week) (num_blocks_to_keep 10 week 1) [0] /\
  AdherenceSimulator week 1 [0] (seq 0 10) = inr [0] /\
  length [0] <> length (seq 0 10).
Proof.
  split; [split; discriminate|]. split; [|split; [by vm_compute|simpl; lia]].
  split; [|split].
  - apply NoDup_singleton.
  - reflexivity.
  - repeat constructor.
Qed.

(** *** Ninety days in weeks at 0.89 (C3) *)




(** *** Errors (C6) *)

(** C6, as the code has it.  The simulator does not check the keep
    fraction.  Its only failure is the [ValueError] of numpy's sampling,
    raised before any point is copied, exactly when the truncated number
    of blocks to keep is negative or exceeds the number of blocks; this
    never happens for a fraction in [0,1]. *)
Theorem AdherenceSimulator_errors {A} (b : block_level) (p : Q)
    (draw : list nat) (data : list A) :
  let n := num_blocks (length data) b in
  let k := num_blocks_to_keep (length data) b p in
  (AdherenceSimulator b p draw data = inl ValueError <-> (k < 0 \/ n < k)%Z) /\
  (forall e, AdherenceSimulator b p draw data = inl e -> e = ValueError) /\
  (~ (k < 0 \/ n < k)%Z ->
   AdherenceSimulator b p draw data = inr (kept_points draw 0 data)) /\
  ((0 <= p <= 1)%Q -> ~ (k < 0 \/ n < k)%Z).
Proof.
  intros n k. rewrite AdherenceSimulator_unfold. fold n k.
  destruct (Z.ltb_spec k 0) as [Hk|Hk]; simpl.
  - split; [split; [lia|done]|]. split; [by intros e [= <-]|].
    split; [lia|]. intros Hp.
    pose proof (num_blocks_to_keep_bounds (length data) b p Hp). unfold n, k in *. lia.
  - destruct (Z.ltb_spec n k) as [Hn|Hn].
    + split; [split; [lia|done]|]. split; [by intros e [= <-]|].
      split; [lia|]. intros Hp.
      pose proof (num_blocks_to_keep_bounds (length data) b p Hp). unfold n, k in *. lia.
    + split; [split; [discriminate|lia]|]. split; [discriminate|].
      split; [done|]. intros _. lia.
Qed.

(** C6 fails at keep fractions 1.05 and -0.05 on ten daily points: both
    lie outside [0,1] and no error is raised. *)
Lemma AdherenceSimulator_accepts_out_of_range :
  ~ (0 <= 21 # 20 <= 1)%Q /\
  is_sample (num_blocks 10 day) (num_blocks_to_keep 10 day (21 # 20)) (seq 0 10) /\
  AdherenceSimulator day (21 # 20) (seq 0 10) (seq 0 10) = inr (seq 0 10) /\
  ~ (0 <= -1 # 20 <= 1)%Q /\
  is_sample (num_blocks 10 day) (num_blocks_to_keep 10 day (-1 # 20)) [] /\
  AdherenceSimulator day (-1 # 20) [] (seq 0 10) = inr [].
Proof.
  split; [intros [_ H]; by apply H|]. split.
  { sample_of_seq. }
  split; [by vm_compute|]. split; [intros [H _]; by apply H|]. split.
  { split; [apply NoDup_nil_2|]. split; [reflexivity|constructor]. }
  by vm_compute.
Qed.

(** ** The neighbour distances (C8) *)

(** C8.  The positions that the z-score cell flags are those whose
    absolute z-score over the raw values exceeds the threshold.  They
    depend on the value column only: two notebooks with the same values
    flag the same positions whatever their [distances], and running the
    distance cell first changes nothing. *)
Theorem flagged_ignores_distances (math_sqrt : float64 -> float64)
    (threshold : Q) (nb1 nb2 : notebook) :
  hr_bpm nb1 = hr_bpm nb2 ->
  fst (zscore_cell threshold nb1) = fst (zscore_cell threshold nb2) /\
  fst (zscore_cell threshold (distances_cell math_sqrt nb1)) =
    fst (zscore_cell threshold nb1) /\
  (forall i, i ∈ fst (zscore_cell threshold nb1) <->
             exceeds (hr_bpm nb1) threshold i).
Proof.
  intros E. unfold zscore_cell, distances_cell. simpl. rewrite E.
  split; [done|]. split; [done|]. intros i. apply flagged_exceeds.
Qed.

(** Two notebooks over [series12], before and after the distance cell:
    their [distances] differ and they flag the same position. *)
Lemma flagged_ignores_distances_witness :
  let nb1 := {| hr_bpm := series12; distances := [] |} in
  let nb2 := distances_cell sqrt_floor nb1 in
  distances nb2 = map F [29; 3; 3; 3; 3; 3; 3; 3]%Z /\
  distances nb1 <> distances nb2 /\
  fst (zscore_cell 3 nb1) = fst (zscore_cell 3 nb2).
Proof.
  cbv zeta. split; [by vm_compute|]. split; [by vm_compute|].
  exact (proj1 (flagged_ignores_distances sqrt_floor 3
                  {| hr_bpm := series12; distances := [] |}
                  (distances_cell sqrt_floor
                     {| hr_bpm := series12; distances := [] |})
                  eq_refl)).
Defined.

(** ** The frame in sections 9.1 and 9.2 (C7) *)

Lemma set_column_lookup (rows : nat) (name : string) (col : list cell)
    (df df' : frame) :
  set_column rows name col df = inr df' ->
  df' !! name = Some col /\ forall c, c ≠ name -> df' !! c = df !! c.
Proof.
  unfold set_column. destruct (decide _); [|discriminate]. intros [= <-].
  split; [apply lookup_insert_eq|]. intros c Hc. by apply lookup_insert_ne.
Qed.

Lemma column_inr (e : exn) (name : string) (df : frame) (col : list cell) :
  column e name df = inr col <-> df !! name = Some col.
Proof.
  unfold column. destruct (df !! name); [|done].
  split; intros [= ->]; done.
Qed.

Lemma time_of_day_cell_effect (df df' : frame) :
  time_of_day_cell df = inr df' ->
  is_Some (df' !! "Time of Day") /\
  forall c, c ≠ "Time of Day" -> df' !! c = df !! c.
Proof.
  unfold time_of_day_cell.
  intros (col & _ & H)%bind_inr. apply bind_inr in H as (ts & _ & H).
  apply bind_inr in H as (df1 & [_ O1]%set_column_lookup & H).
  apply bind_inr in H as (c & _ & [E2 O2]%set_column_lookup).
  split; [by rewrite E2|]. intros c' Hc. by rewrite O2, O1.
Qed.

(** C7, as the code has it.  Running section 9.1 and then section 9.2 on a
    frame leaves every column the frame had unchanged, the timestamps and
    the glucose values among them, except a column of either new name; it
    adds the field "Time of Day" (9.1) and then the field "Rates of change"
    (9.2) to the frame. *)
Theorem sections_frame_effect
    (kruskal f_test : list cell -> list cell -> float64 * float64)
    (df df1 df2 : frame) (r1 r2 : float64 * float64) :
  section_9_1 kruskal df = inr (df1, r1) ->
  section_9_2 f_test df1 = inr (df2, r2) ->
  (forall c, c ≠ "Time of Day" -> df1 !! c = df !! c) /\
  (forall c, c ≠ "Time of Day" -> c ≠ "Rates of change" -> df2 !! c = df !! c) /\
  df2 !! "datetime" = df !! "datetime" /\
  df2 !! "glucose_level" = df !! "glucose_level" /\
  is_Some (df1 !! "Time of Day") /\
  is_Some (df2 !! "Time of Day") /\ is_Some (df2 !! "Rates of change").
Proof.
  unfold section_9_1, section_9_2. intros H1 H2.
  apply bind_inr in H1 as (da & [Sa Oa]%time_of_day_cell_effect & H1).
  apply bind_inr in H1 as (lab & _ & H1).
  apply bind_inr in H1 as (g & _ & [= <- _]).
  apply bind_inr in H2 as (db & [Sb Ob]%time_of_day_cell_effect & H2).
  apply bind_inr in H2 as (gcol & _ & H2).
  apply bind_inr in H2 as (tcol & _ & H2).
  apply bind_inr in H2 as (gs & _ & H2).
  apply bind_inr in H2 as (ts & _ & H2).
  apply bind_inr in H2 as (rates & _ & H2).
  apply bind_inr in H2 as (dc & [Sc Oc]%set_column_lookup & H2).
  apply bind_inr in H2 as (r & Er%column_inr & H2).
  apply bind_inr in H2 as (lab' & Et%column_inr & [= <- _]).
  assert (O : forall c, c ≠ "Time of Day" -> c ≠ "Rates of change" ->
                        dc !! c = df !! c).
  { intros c Hc1 Hc2. by rewrite Oc, Ob, Oa. }
  split; [done|]. split; [done|].
  split; [by apply O|]. split; [by apply O|].
  split; [done|]. rewrite Et, Er. split; by eexists.
Qed.

(** Both sections run on [df0] and leave its two columns as they were. *)
Lemma sections_frame_effect_witness :
  exists df1 df2 r1 r2,
    section_9_1 sample_sizes df0 = inr (df1, r1) /\
    section_9_2 sample_sizes df1 = inr (df2, r2) /\
    df2 !! "datetime" = df0 !! "datetime" /\
    df2 !! "glucose_level" = df0 !! "glucose_level".
Proof.
  destruct (section_9_1 sample_sizes df0) as [e|[df1 r1]] eqn:E1;
    [by vm_compute in E1|].
  destruct (section_9_2 sample_sizes df1) as [e|[df2 r2]] eqn:E2.
  { exfalso. revert E2. injection E1 as <- <-. vm_compute. discriminate. }
  exists df1, df2, r1, r2. split; [done|]. split; [done|].
  destruct (sections_frame_effect sample_sizes sample_sizes df0 df1 df2 r1 r2
              E1 E2) as (_ & _ & Hd & Hg & _).
  by split.
Defined.

(** C7 fails on [df0]: the frame has no field "Time of Day" before section
    9.1 and has one after it; after section 9.2 it has the field
    "Rates of change" as well. *)
Lemma sections_add_fields :
  df0 !! "Time of Day" = None /\ df0 !! "Rates of change" = None /\
  exists df1 df2 r1 r2,
    section_9_1 sample_sizes df0 = inr (df1, r1) /\
    section_9_2 sample_sizes df1 = inr (df2, r2) /\
    df1 !! "Time of Day" = Some [Text "Night"; Text "Day"; Text "Day"] /\
    df1 !! "Rates of change" = None /\
    is_Some (df2 !! "Time of Day") /\ is_Some (df2 !! "Rates of change").
Proof.
  split; [by vm_compute|]. split; [by vm_compute|].
  destruct (section_9_1 sample_sizes df0) as [e|[df1 r1]] eqn:E1;
    [by vm_compute in E1|].
  assert (Hdf1 : df1 = <["Time of Day" := [Text "Night"; Text "Day"; Text "Day"]]> df0).
  { revert E1. vm_compute. by intros [= <- _]. }
  destruct (section_9_2 sample_sizes df1) as [e|[df2 r2]] eqn:E2.
  { exfalso. revert E2. rewrite Hdf1. vm_compute. discriminate. }
  exists df1, df2, r1, r2. split; [done|]. split; [done|].
  split; [rewrite Hdf1; apply lookup_insert_eq|].
  split; [by rewrite Hdf1; vm_compute|].
  revert E2. rewrite Hdf1. vm_compute. intros [= <- _]. split; eexists; reflexivity.
Qed.

(** ** The session cell of the Polar notebooks *)

Lemma nonadherence_loop_length (remove : list string) (rand_lt : nat -> bool)
    (n : nat) (d d' : sessions) (dates dates' : list string) :
  nonadherence_loop remove rand_lt n d dates = inr (d', dates') ->
  length d' <= length d.
Proof.
  revert n d dates; induction remove as [|key remove IH]; intros n d dates; simpl.
  - by intros [= <- _].
  - destruct (rand_lt n).
    + unfold pop. destruct (bool_decide _); [|discriminate].
      destruct (list_remove key dates) as [e|dates1]; [discriminate|].
      intros H%IH. etransitivity; [exact H|]. apply length_filter.
    + unfold extend. destruct (bool_decide _); [|discriminate].
      intros H%IH. by rewrite length_map in H.
Qed.

(** The cell never returns more sessions than it was given, and with a
    keep fraction of 1 it removes nothing, for days and for weeks. *)
Lemma polar_nonadherence_length (b : block_level) (p : Q) (draw : list string)
    (rand_lt : nat -> bool) (data d' : sessions) (dates' : list string) :
  polar_nonadherence b p draw rand_lt data = inr (d', dates') ->
  length d' <= length data.
Proof.
  unfold polar_nonadherence, np_random_choice.
  destruct (_ || _); [discriminate|]. apply nonadherence_loop_length.
Qed.

Lemma polar_nonadherence_keep_all (b : block_level) (p : Q)
    (rand_lt : nat -> bool) (data : sessions) :
  (p == 1)%Q ->
  num_blocks_to_remove (length (keys data)) b p = 0%Z /\
  polar_nonadherence b p [] rand_lt data = inr (data, keys data).
Proof.
  intros E.
  assert (H : num_blocks_to_remove (length (keys data)) b p = 0%Z).
  { unfold num_blocks_to_remove. apply (py_int_inject _ 0). rewrite E. ring. }
  split; [done|]. unfold polar_nonadherence, np_random_choice. rewrite H.
  destruct (Z.ltb_spec (Z.of_nat (length (keys data))) 0); [lia|]. done.
Qed.

(** With a keep fraction of 0 sessions may remain: a date whose draw of
    [np.random.rand()] is not below 0.8 keeps its session, lengthened by a
    hundred zeros. *)
Lemma polar_nonadherence_keep_none :
  let data := [("2022-03-01"%string, [F 90]); ("2022-03-02"%string, [F 95])] in
  num_blocks_to_remove 2 day 0 = 2%Z /\
  exists d' dates',
    polar_nonadherence day 0 ["2022-03-02"; "2022-03-01"]%string
      (fun _ => false) data = inr (d', dates') /\
    length d' = 2 /\ dates' = ["2022-03-01"; "2022-03-02"]%string.
Proof.
  cbv zeta. split; [by vm_compute|]. eexists _, _.
  split; [by vm_compute|]. by vm_compute.
Qed.

(** * Further properties *)

(** ** The averaging window, position by position *)

Lemma py_slice_seq_at (n : nat) (a b : Z) (k : nat) :
  b = (a + 1)%Z -> (0 <= a)%Z -> k = Z.to_nat a -> k < n ->
  py_slice (seq 0 n) a b = [k].
Proof.
  intros Hb Ha -> Hk. rewrite (py_slice_single _ a b Hb).
  destruct (Z.leb_spec 0 a); [|lia]. by rewrite lookup_seq_lt.
Qed.

Lemma py_slice_seq_past (n : nat) (a b : Z) :
  b = (a + 1)%Z -> (Z.of_nat n <= a)%Z -> py_slice (seq 0 n) a b = [].
Proof.
  intros Hb Ha. rewrite (py_slice_single _ a b Hb).
  destruct (Z.leb_spec 0 a); [|lia]. by rewrite lookup_seq_ge by lia.
Qed.

Lemma py_slice_seq_wrap (n : nat) (a b : Z) (k : nat) :
  b = (a + 1)%Z -> (a < -1)%Z -> (0 <= a + Z.of_nat n)%Z ->
  k = Z.to_nat (a + Z.of_nat n) -> py_slice (seq 0 n) a b = [k].
Proof.
  intros Hb Ha Hn ->. rewrite (py_slice_single _ a b Hb), length_seq.
  destruct (Z.leb_spec 0 a); [lia|]. destruct (Z.eqb_spec a (-1)); [lia|].
  destruct (Z.leb_spec 0 (a + Z.of_nat n)); [|lia]. by rewrite lookup_seq_lt by lia.
Qed.

Lemma py_slice_seq_last (n : nat) (a b : Z) :
  a = (-1)%Z -> b = 0%Z -> py_slice (seq 0 n) a b = [].
Proof. intros -> ->. by rewrite (py_slice_single _ (-1) 0). Qed.

(** In a series of at least five points the window of a position holds
    the values at these positions: for position 0 the third-last and
    second-last, then 1 and 2; for position 1 the second-last, then 2 and
    3; for position 2 the first, then 3 and 4; for every later position
    [idx] the positions [idx - 3] and [idx - 2], then [idx + 1] and
    [idx + 2] as far as they exist.  The position [idx - 1] is never
    averaged. *)
Theorem vals_window_positions (n idx : nat) :
  5 <= n -> idx < n ->
  vals (seq 0 n) (Z.of_nat idx) =
    (if decide (idx = 0) then [n - 3; n - 2]
     else if decide (idx = 1) then [n - 2]
     else if decide (idx = 2) then [0]
     else [idx - 3; idx - 2]) ++
    (if decide (idx + 1 < n) then [idx + 1] else []) ++
    (if decide (idx + 2 < n) then [idx + 2] else []).
Proof.
  intros Hn Hi. unfold vals.
  assert (H1 : py_slice (seq 0 n) (Z.of_nat idx + 1) (Z.of_nat idx + 2) =
               if decide (idx + 1 < n) then [idx + 1] else []).
  { destruct (decide (idx + 1 < n));
      [apply py_slice_seq_at|apply py_slice_seq_past]; lia. }
  assert (H2 : py_slice (seq 0 n) (Z.of_nat idx + 2) (Z.of_nat idx + 3) =
               if decide (idx + 2 < n) then [idx + 2] else []).
  { destruct (decide (idx + 2 < n));
      [apply py_slice_seq_at|apply py_slice_seq_past]; lia. }
  rewrite H1, H2. clear H1 H2. rewrite app_assoc. f_equal.
  destruct (decide (idx = 0)) as [->|H0].
  { rewrite (py_slice_seq_wrap n _ _ (n - 3)), (py_slice_seq_wrap n _ _ (n - 2));
      [done|lia..]. }
  destruct (decide (idx = 1)) as [->|H1].
  { rewrite (py_slice_seq_wrap n _ _ (n - 2)), py_slice_seq_last; [done|lia..]. }
  destruct (decide (idx = 2)) as [->|H2].
  { rewrite py_slice_seq_last, (py_slice_seq_at n _ _ 0); [done|lia..]. }
  rewrite (py_slice_seq_at n _ _ (idx - 3)), (py_slice_seq_at n _ _ (idx - 2));
    [done|lia..].
Qed.

(** The last position of eight, and position 1. *)
Lemma vals_window_positions_witness :
  vals (seq 0 8) (Z.of_nat 7) = [4; 5] /\ vals (seq 0 8) (Z.of_nat 1) = [6; 2; 3].
Proof.
  split.
  - exact (vals_window_positions 8 7 ltac:(lia) ltac:(lia)).
  - exact (vals_window_positions 8 1 ltac:(lia) ltac:(lia)).
Defined.

(** ** Removal by a mask *)

Lemma drop_masked_filter {A} (g : A -> bool) (data : list A) :
  drop_masked data (map g data) = filter (fun x => g x = false) data.
Proof.
  induction data as [|y data IH]; [done|]. simpl. rewrite IH, filter_cons.
  destruct (g y); [by rewrite decide_False|by rewrite decide_True].
Qed.

(** ** Witnesses for properties of the cleaning loop *)

(** The flagged positions of [series24] visited in reverse order. *)
Lemma replace_loop_Permutation_witness :
  replace_loop series24 [11; 10] series24 =
  replace_loop series24 [10; 11] series24.
Proof.
  apply replace_loop_Permutation. apply Permutation_swap.
Defined.

(** [series12] has finite readings only, and so has its cleaned form. *)
Lemma detect_and_clean_finite_witness :
  is_Some (finite series12) /\ is_Some (finite (detect_and_clean series12 3)).
Proof.
  assert (H : is_Some (finite series12)) by (by eexists).
  split; [exact H|]. exact (detect_and_clean_finite series12 3 H).
Defined.

(** ** The Garmin cell as a whole *)

Lemma garmin_step_finite (data : list float64) (idx : nat) :
  is_Some (finite data) -> is_Some (finite (garmin_step data idx)).
Proof.
  intros H. unfold garmin_step.
  destruct (decide (idx < length data)) as [Hlt|Hge].
  - destruct (mean_val_finite data idx H Hlt) as [q ->].
    apply finite_Forall, Forall_insert; [by apply finite_Forall|].
    by eexists.
  - by rewrite list_insert_ge by lia.
Qed.

Lemma garmin_loop_finite (data : list float64) (idxs : list nat) :
  is_Some (finite data) -> is_Some (finite (garmin_loop data idxs)).
Proof.
  unfold garmin_loop. revert data; induction idxs as [|a idxs IH];
    intros data H; simpl; [done|]. by apply IH, garmin_step_finite.
Qed.

(** The Garmin cell keeps the length of the array, changes no reading
    outside the flagged positions, and turns finite readings into finite
    readings: its mean is never taken over an empty slice. *)
Theorem garmin_clean_frame (s : list float64) (t : Q) :
  length (garmin_clean s t) = length s /\
  (forall i, i ∉ flagged s t -> garmin_clean s t !! i = s !! i) /\
  (is_Some (finite s) -> is_Some (finite (garmin_clean s t))).
Proof.
  unfold garmin_clean. split; [apply garmin_loop_length|].
  split; [intros i Hi; by apply garmin_loop_other|apply garmin_loop_finite].
Qed.

(** ** [clean_data] as a filter *)

(** [clean_data] returns, in their order, exactly the readings whose
    absolute z-score over the whole input does not exceed the threshold;
    it returns a subsequence of its input. *)
Theorem clean_data_keeps (data : list Q) (t : Q) :
  clean_data data t = filter (fun x => abs_z_gt data t x = false) data /\
  clean_data data t `sublist_of` data /\
  (forall x, x ∈ clean_data data t <-> x ∈ data /\ abs_z_gt data t x = false) /\
  length (clean_data data t) <= length data.
Proof.
  unfold clean_data. rewrite drop_masked_filter.
  split; [done|]. split; [apply sublist_filter|].
  split; [|apply length_filter].
  intros x. rewrite list_elem_of_filter. tauto.
Qed.

(** ** Which points [AdherenceSimulator] returns *)

Lemma kept_points_app {A} (idxes : list nat) (k : nat) (l1 l2 : list A) :
  kept_points idxes k (l1 ++ l2) =
  kept_points idxes k l1 ++ kept_points idxes (k + length l1) l2.
Proof.
  revert k; induction l1 as [|x l1 IH]; intros k; simpl.
  - by rewrite Nat.add_0_r.
  - rewrite IH, <- app_assoc. do 3 f_equal. lia.
Qed.

Lemma kept_points_beyond {A} (idxes : list nat) (k : nat) (l : list A) :
  (forall i, i ∈ idxes -> i < k) -> kept_points idxes k l = [].
Proof.
  revert k; induction l as [|x l IH]; intros k H; simpl; [done|].
  rewrite bool_decide_eq_false_2; [|intros Hk%H; lia].
  simpl. apply IH. intros i Hi%H. lia.
Qed.

Lemma elem_of_kept_points {A} (idxes : list nat) (k : nat) (l : list A) (x : A) :
  x ∈ kept_points idxes k l <-> exists j, l !! j = Some x /\ k + j ∈ idxes.
Proof.
  revert k; induction l as [|y l IH]; intros k; simpl.
  - rewrite elem_of_nil. split; [done|]. by intros (j & ? & _).
  - rewrite elem_of_app, IH. split.
    + intros [H|(j & Hj & Hin)].
      * case_bool_decide as Hk; [|by apply elem_of_nil in H].
        apply list_elem_of_singleton in H as ->. exists 0.
        by rewrite Nat.add_0_r.
      * exists (S j). split; [done|]. by replace (k + S j) with (S k + j) by lia.
    + intros ([|j] & Hj & Hin).
      * left. simpl in Hj. injection Hj as ->. rewrite Nat.add_0_r in Hin.
        rewrite bool_decide_eq_true_2 by done. by left.
      * right. exists j. split; [done|].
        by replace (S k + j) with (k + S j) by lia.
Qed.

(** For a keep fraction in [0,1], [AdherenceSimulator] returns exactly the
    points [data[i]] whose own position [i] was drawn, in increasing order
    of position, one point per drawn block number: the result has
    [num_blocks_to_keep] points and all of them come from the first
    [num_blocks] positions of the input, whatever the block length. *)
Theorem AdherenceSimulator_positions {A} (b : block_level) (p : Q)
    (draw : list nat) (data : list A) :
  (0 <= p <= 1)%Q ->
  is_sample (num_blocks (length data) b)
            (num_blocks_to_keep (length data) b p) draw ->
  exists res,
    AdherenceSimulator b p draw data = inr res /\
    length res = Z.to_nat (num_blocks_to_keep (length data) b p) /\
    res `sublist_of` take (Z.to_nat (num_blocks (length data) b)) data /\
    (forall x, x ∈ res <-> exists i, i ∈ draw /\ data !! i = Some x).
Proof.
  intros Hp Hs. exists (kept_points draw 0 data).
  pose proof (num_blocks_to_keep_bounds (length data) b p Hp) as [Hk0 Hkn].
  pose proof (num_blocks_bounds (length data) b) as [Hn0 Hnb].
  split.
  { rewrite AdherenceSimulator_unfold.
    destruct (Z.ltb_spec (num_blocks_to_keep (length data) b p) 0); [lia|].
    destruct (Z.ltb_spec (num_blocks (length data) b)
                (num_blocks_to_keep (length data) b p)); [lia|]. done. }
  split.
  { rewrite (sample_length _ _ draw data Hs Hnb). destruct Hs as (_ & <- & _). lia. }
  split.
  - set (n := Z.to_nat (num_blocks (length data) b)).
    rewrite <- (take_drop n data) at 1. rewrite kept_points_app.
    rewrite (kept_points_beyond draw _ (drop n data)).
    + rewrite app_nil_r. apply kept_points_sublist.
    + intros i Hi. destruct Hs as (_ & _ & Hlt). rewrite Forall_forall in Hlt.
      specialize (Hlt i Hi). rewrite length_take. unfold n. lia.
  - intros x. rewrite elem_of_kept_points. split.
    + intros (j & Hj & Hin). by exists j.
    + intros (i & Hi & Hx). by exists i.
Qed.

(** Fourteen daily points in week blocks at keep fraction 1: the two
    points returned are the first two days. *)
Lemma AdherenceSimulator_positions_witness :
  exists res,
    AdherenceSimulator week 1 [1; 0] (seq 0 14) = inr res /\
    res `sublist_of` take 2 (seq 0 14).
Proof.
  assert (Hp : (0 <= 1 <= 1)%Q) by (split; discriminate).
  assert (Hs : is_sample (num_blocks (length (seq 0 14)) week)
                 (num_blocks_to_keep (length (seq 0 14)) week 1) [1; 0]).
  { split; [|split].
    - apply NoDup_ListNoDup. repeat constructor; simpl; lia.
    - reflexivity.
    - repeat constructor. }
  destruct (AdherenceSimulator_positions week 1 [1; 0] (seq 0 14) Hp Hs)
    as (res & E & _ & Hsub & _).
  exists res. by split.
Defined.

(** ** Non-adherence in the Polar notebook: removal and detection *)

Lemma keys_filter (key : string) (d : sessions) :
  keys (filter (fun kv => fst kv ≠ key) d) = filter (fun k => k ≠ key) (keys d).
Proof.
  unfold keys. induction d as [|kv d IH]; [done|]. simpl.
  rewrite !filter_cons. destruct (decide (fst kv ≠ key)); simpl; by rewrite IH.
Qed.

Lemma keys_extend (key : string) (zeros : list float64) (d : sessions) :
  keys (map (fun kv => if decide (fst kv = key)
                       then (fst kv, snd kv ++ zeros) else kv) d) = keys d.
Proof.
  unfold keys. induction d as [|kv d IH]; [done|]. simpl. rewrite IH.
  by destruct (decide (fst kv = key)).
Qed.

Lemma get_session_filter (key date : string) (d : sessions) :
  get_session date (filter (fun kv => fst kv ≠ key) d) =
  if decide (date = key) then None else get_session date d.
Proof.
  induction d as [|kv d IH]; simpl; [by destruct (decide _)|].
  rewrite filter_cons. destruct (decide (fst kv ≠ key)) as [Hne|Heq]; simpl.
  - rewrite IH. destruct (decide (fst kv = date)) as [<-|]; [|done].
    by rewrite decide_False.
  - rewrite IH. apply dec_stable in Heq.
    destruct (decide (date = key)) as [->|Hd]; [done|].
    by rewrite decide_False by congruence.
Qed.

Lemma get_session_extend (key date : string) (zeros : list float64)
    (d : sessions) :
  get_session date
    (map (fun kv => if decide (fst kv = key)
                    then (fst kv, snd kv ++ zeros) else kv) d) =
  if decide (date = key) then (fun hr => hr ++ zeros) <$> get_session date d
  else get_session date d.
Proof.
  induction d as [|kv d IH]; simpl; [by destruct (decide _)|].
  destruct (decide (fst kv = key)) as [Hk|Hk]; simpl.
  - destruct (decide (fst kv = date)) as [Hd|Hd].
    + rewrite decide_True by congruence. done.
    + apply IH.
  - destruct (decide (fst kv = date)) as [Hd|Hd].
    + by rewrite decide_False by congruence.
    + apply IH.
Qed.

Lemma get_session_keys (date : string) (d : sessions) :
  is_Some (get_session date d) <-> date ∈ keys d.
Proof.
  unfold keys. induction d as [|kv d IH]; simpl.
  - rewrite elem_of_nil. split; [by intros [? ?]|done].
  - rewrite elem_of_cons. destruct (decide (fst kv = date)) as [Hd|Hd].
    + split; [by left|by eexists].
    + rewrite IH. split; [by right|]. intros [?|?]; [congruence|done].
Qed.

Lemma filter_all {A} (P : A -> Prop) `{!forall x, Decision (P x)} (l : list A) :
  Forall P l -> filter P l = l.
Proof.
  induction 1 as [|x l Hx _ IH]; [done|].
  by rewrite filter_cons, decide_True, IH.
Qed.

Lemma list_remove_NoDup (key : string) (l : list string) :
  key ∈ l -> NoDup l -> list_remove key l = inr (filter (fun k => k ≠ key) l).
Proof.
  induction l as [|x l IH]; intros Hin Hnd; [by apply elem_of_nil in Hin|].
  apply NoDup_cons in Hnd as [Hx Hnd]. simpl. rewrite filter_cons.
  destruct (decide (x = key)) as [->|Hne].
  - rewrite decide_False by (by intros H). f_equal. symmetry.
    apply filter_all, Forall_forall. by intros y Hy ->.
  - rewrite decide_True by done. apply elem_of_cons in Hin as [?|Hin]; [congruence|].
    by rewrite (IH Hin Hnd).
Qed.

Lemma has_zero_app (l1 l2 : list float64) :
  has_zero (l1 ++ l2) = has_zero l1 || has_zero l2.
Proof. apply existsb_app. Qed.

Lemma nonadherence_loop_spec (remove : list string) (rand_lt : nat -> bool)
    (n : nat) (d : sessions) :
  NoDup (keys d) -> NoDup remove -> remove ⊆ keys d ->
  exists d',
    nonadherence_loop remove rand_lt n d (keys d) = inr (d', keys d') /\
    NoDup (keys d') /\
    (forall date, date ∉ remove -> get_session date d' = get_session date d) /\
    (forall date hr, date ∈ remove -> get_session date d' = Some hr ->
                     has_zero hr = true).
Proof.
  revert n d; induction remove as [|key remove IH]; intros n d Hd Hr Hsub.
  { exists d. simpl. split; [done|]. split; [done|]. split; [done|].
    intros date hr H. by apply elem_of_nil in H. }
  apply NoDup_cons in Hr as [Hkey Hr].
  assert (Hin : key ∈ keys d) by (apply Hsub; by left).
  simpl. destruct (rand_lt n).
  - unfold pop. rewrite bool_decide_eq_true_2 by done. result_simpl.
    rewrite (list_remove_NoDup key (keys d) Hin Hd). result_simpl.
    rewrite <- keys_filter.
    destruct (IH (S n) (filter (fun kv => fst kv ≠ key) d)) as (d' & E & Hd' & Ho & Hz).
    + rewrite keys_filter. by apply NoDup_filter.
    + done.
    + intros r Hrin. rewrite keys_filter. apply list_elem_of_filter.
      split; [by intros ->|]. apply Hsub. by right.
    + exists d'. split; [done|]. split; [done|]. split.
      * intros date Hdate. apply not_elem_of_cons in Hdate as [Hne Hdate].
        rewrite (Ho date Hdate), get_session_filter. by rewrite decide_False.
      * intros date hr [->|Hdate]%elem_of_cons Hget; [|by apply (Hz date)].
        rewrite (Ho key Hkey), get_session_filter, decide_True in Hget by done.
        discriminate.
  - unfold extend. rewrite bool_decide_eq_true_2 by done. result_simpl.
    set (d1 := map _ d).
    assert (Hk1 : keys d1 = keys d) by apply keys_extend.
    rewrite <- Hk1.
    destruct (IH (S n) d1) as (d' & E & Hd' & Ho & Hz).
    + by rewrite Hk1.
    + done.
    + intros r Hrin. rewrite Hk1. apply Hsub. by right.
    + exists d'. split; [done|]. split; [done|]. split.
      * intros date Hdate. apply not_elem_of_cons in Hdate as [Hne Hdate].
        rewrite (Ho date Hdate). unfold d1. rewrite get_session_extend.
        by rewrite decide_False.
      * intros date hr [->|Hdate]%elem_of_cons Hget; [|by apply (Hz date)].
        rewrite (Ho key Hkey) in Hget. unfold d1 in Hget.
        rewrite get_session_extend, decide_True in Hget by done.
        destruct (get_session key d) as [hr0|]; [|discriminate].
        injection Hget as <-. rewrite has_zero_app.
        apply orb_true_iff. right. reflexivity.
Qed.

Lemma is_wearing_loop_spec (datelist : list string) (d : sessions)
    (acc : list Z) :
  is_wearing_loop datelist d (keys d) acc =
  inr (acc ++ map (fun date =>
                     match get_session date d with
                     | Some hr => if has_zero hr then 0%Z else 1%Z
                     | None => 0%Z
                     end) datelist).
Proof.
  revert acc; induction datelist as [|date datelist IH]; intros acc; simpl.
  - by rewrite app_nil_r.
  - case_bool_decide as Hin.
    + apply get_session_keys in Hin as [hr Hhr]. unfold heart_rates.
      rewrite Hhr. result_simpl.
      destruct (has_zero hr); rewrite IH, <- app_assoc; done.
    + destruct (get_session date d) as [hr|] eqn:Hhr.
      * exfalso. apply Hin, get_session_keys. by eexists.
      * rewrite IH, <- app_assoc. done.
Qed.

(** Detection recovers the simulated non-adherence.  When every recorded
    session is free of zero heart rates and the drawn dates are distinct
    dates of the data, the removal cell raises no error, and the detection
    loop reports 1 for exactly the days that have a session and were not
    drawn: a drawn day is reported 0 whether its session was deleted or
    padded with zeros. *)
Theorem nonadherence_is_detected (b : block_level) (p : Q)
    (draw datelist : list string) (rand_lt : nat -> bool) (data : sessions) :
  NoDup (keys data) ->
  (forall date hr, get_session date data = Some hr -> has_zero hr = false) ->
  is_date_sample (keys data)
    (num_blocks_to_remove (length (keys data)) b p) draw ->
  exists adhered_data adhered_dates,
    polar_nonadherence b p draw rand_lt data = inr (adhered_data, adhered_dates) /\
    adhered_dates = keys adhered_data /\
    is_wearing_loop datelist adhered_data adhered_dates [] =
      inr (map (fun date =>
                  if bool_decide (date ∈ keys data /\ date ∉ draw)
                  then 1%Z else 0%Z) datelist).
Proof.
  intros Hnd Hclean (Hdraw & Hlen & Hsub).
  destruct (nonadherence_loop_spec draw rand_lt 0 data Hnd Hdraw Hsub)
    as (d' & E & Hd' & Ho & Hz).
  exists d', (keys d'). split; [|split; [done|]].
  - unfold polar_nonadherence, np_random_choice.
    assert (Hle : length draw <= length (keys data)).
    { apply submseteq_length, NoDup_submseteq; [done|]. intros x Hx. by apply Hsub. }
    destruct (Z.ltb_spec (num_blocks_to_remove (length (keys data)) b p) 0); [lia|].
    destruct (Z.ltb_spec (Z.of_nat (length (keys data)))
                (num_blocks_to_remove (length (keys data)) b p)); [lia|].
    result_simpl. exact E.
  - rewrite is_wearing_loop_spec. simpl. f_equal.
    apply map_ext_in. intros date _.
    destruct (decide (date ∈ draw)) as [Hin|Hout].
    + rewrite bool_decide_eq_false_2 by tauto.
      destruct (get_session date d') as [hr|] eqn:Hhr; [|done].
      by rewrite (Hz date hr Hin Hhr).
    + rewrite (Ho date Hout).
      destruct (get_session date data) as [hr|] eqn:Hhr.
      * rewrite (Hclean date hr Hhr).
        rewrite bool_decide_eq_true_2; [done|]. split; [|done].
        apply get_session_keys. by eexists.
      * rewrite bool_decide_eq_false_2; [done|]. intros [Hk _].
        apply get_session_keys in Hk as [? ?]. congruence.
Qed.

(** With [polar_sessions], one drawn day and a draw of [np.random.rand]
    that pads it with zeros, the detection loop reports [1; 0; 1; 0] for
    the four days of [polar_datelist]. *)
Lemma nonadherence_is_detected_witness :
  exists adhered_data adhered_dates,
    polar_nonadherence day (1 # 2) ["2022-03-02"] (fun _ => false)
      polar_sessions = inr (adhered_data, adhered_dates) /\
    is_wearing_loop polar_datelist adhered_data adhered_dates [] =
      inr [1; 0; 1; 0]%Z.
Proof.
  assert (Hnd : NoDup (keys polar_sessions)).
  { apply NoDup_ListNoDup. repeat constructor; simpl; intuition discriminate. }
  assert (Hclean : forall date hr,
             get_session date polar_sessions = Some hr -> has_zero hr = false).
  { intros date hr. unfold polar_sessions; simpl.
    repeat (destruct (decide _); [intros [= <-]; reflexivity|]).
    discriminate. }
  assert (Hs : is_date_sample (keys polar_sessions)
                 (num_blocks_to_remove (length (keys polar_sessions)) day
                    (1 # 2)) ["2022-03-02"]).
  { split; [|split].
    - apply NoDup_singleton.
    - reflexivity.
    - intros x Hx. apply list_elem_of_singleton in Hx as ->.
      unfold polar_sessions; simpl. set_solver. }
  destruct (nonadherence_is_detected day (1 # 2) ["2022-03-02"]
              polar_datelist (fun _ => false) polar_sessions Hnd Hclean Hs)
    as (ad & dd & E & _ & W).
  exists ad, dd. split; [exact E|]. rewrite W. reflexivity.
Defined.
